(** * QSL card generator: the form store, the LaTeX renderer and the PDF wrapper

    A shallow embedding of [qsl_card_generator.py] (class [QSLCardGenerator]).
    Python strings are modelled as [string] (their UTF-8 bytes); dictionaries
    keyed by field name are [gmap string _]; the settings dictionary, which the
    code iterates over, is an association list in insertion order. *)

From Stdlib Require Import String Ascii.
From stdpp Require Import base option list strings gmap.

Local Open Scope string_scope.

(** ** Python values and exceptions *)

Inductive exn : Type :=
| KeyError (key : string)
| AttributeError (attr : string).

Inductive result (A : Type) : Type :=
| Ok (a : A)
| Raise (e : exn).
Arguments Ok {A} a.
Arguments Raise {A} e.

(** [d[k]]: subscripting a dictionary raises [KeyError] on an absent key. *)
Definition dict_getitem {V} (d : gmap string V) (k : string) : result V :=
  match d !! k with
  | Some v => Ok v
  | None => Raise (KeyError k)
  end.

(** [d.get(k, default)] never raises. *)
Definition dict_get {V} (d : gmap string V) (k : string) (default : V) : V :=
  match d !! k with
  | Some v => v
  | None => default
  end.

(** [k in d]. *)
Definition dict_contains {V} (d : gmap string V) (k : string) : bool :=
  match d !! k with
  | Some _ => true
  | None => false
  end.

(** [x or default] on strings: the empty string is the only falsy one. *)
Definition py_or (x default : string) : string :=
  match x with
  | EmptyString => default
  | String _ _ => x
  end.

(** The line feed, and the text made of the given lines, each one ended by
    a line feed. *)
Definition nl : string := String (ascii_of_nat 10) EmptyString.

Definition unlines (lines : list string) : string :=
  foldr (fun line rest => line +:+ nl +:+ rest) "" lines.

(** ** The form *)

(** A form field is a Tk entry (free text) or a Tk string variable (the
    variable behind a group of radio buttons). *)
Inductive widget : Type :=
| Entry (text : string)
| StringVar (value : string).

Definition widget_get (field : widget) : string :=
  match field with
  | StringVar value => value
  | Entry text => text
  end.

(** The attributes of a [QSLCardGenerator] object the methods below use.
    [root] tells whether [self.root] is set (and not [None]): the GUI mode.
    [data] is the dictionary of the command-line mode. [status_label] is the
    text of the status bar, [None] when the object has no such attribute. *)
Record QSLCardGenerator : Type := mkQSLCardGenerator {
  root : bool;
  fields : gmap string widget;
  data : gmap string string;
  status_label : option string
}.

(** ** Methods as state-passing computations that may raise *)

Definition M (A : Type) : Type :=
  QSLCardGenerator -> result A * QSLCardGenerator.

Definition ret {A} (a : A) : M A := fun self => (Ok a, self).

Definition bind {A B} (m : M A) (k : A -> M B) : M B :=
  fun self =>
    match m self with
    | (Ok a, self') => k a self'
    | (Raise e, self') => (Raise e, self')
    end.

Definition lift {A} (r : result A) : M A := fun self => (r, self).

Definition get_self : M QSLCardGenerator := fun self => (Ok self, self).

(** The computations form a monad; stdpp's notation [x ← m; k] is used. *)
#[global] Instance M_ret : MRet M := @ret.
#[global] Instance M_bind : MBind M := fun A B k m => bind m k.

(** [get_field_value]: in GUI mode the widget of the field is looked up,
    after a test that it is there, and asked for its value; in command-line
    mode the value is taken from [data], the empty string when absent. *)
Definition get_field_value (field_name : string) : M string :=
  self ← get_self;
  if root self then
    if negb (dict_contains (fields self) field_name) then mret ""
    else
      field ← lift (dict_getitem (fields self) field_name);
      match field with
      | StringVar _ => mret (widget_get field)
      | Entry _ => mret (widget_get field)
      end
  else mret (dict_get (data self) field_name "").

(** The two glyphs, and the six check boxes of [generate_latex_code]: each
    one is checked when the choice field equals its own literal. *)
Definition checked : string := "$\boxtimes$".
Definition unchecked : string := "$\square$".

Definition home_check (qth_type : string) : string :=
  if (qth_type =? "home")%string then checked else unchecked.
Definition portable_check (qth_type : string) : string :=
  if (qth_type =? "portable")%string then checked else unchecked.
Definition qso_check (qsl_type : string) : string :=
  if (qsl_type =? "qso")%string then checked else unchecked.
Definition swl_check (qsl_type : string) : string :=
  if (qsl_type =? "swl")%string then checked else unchecked.
Definition pse_check (qsl_request : string) : string :=
  if (qsl_request =? "pse")%string then checked else unchecked.
Definition tnx_check (qsl_request : string) : string :=
  if (qsl_request =? "tnx")%string then checked else unchecked.

(** ** The document skeleton

    The f-string of [generate_latex_code], as a function of the local
    variables it interpolates. Each element of the list is one line of the
    skeleton; the document is these lines, each ended by a line feed. *)
Section latex_code.
Variables
    (callsign operator_name qth_city qth_state country grid cq_zone
     itu_zone email qrz_url via to_station their_call date time band mode
     report portable_location transceiver power antenna satellite
     background_image logo1 logo1_scale logo2 logo2_scale logo3 logo3_scale
     home_check portable_check qso_check swl_check pse_check tnx_check : string).

Definition latex_lines : list string := [
      "% QSL Card design by Ian Renton M0TRT. Public domain. Based on an example by Fabian Kurz, DJ5CW.";
      "";
      "\documentclass[10pt]{article}";
      "\pagestyle{empty}";
      "\usepackage{array}";
      "\usepackage[T1]{fontenc}";
      "\usepackage{tgschola}";
      "\usepackage{amsmath}";
      "\usepackage{amssymb}";
      "\usepackage{latexsym}";
      "\usepackage{graphicx}";
      "\usepackage[export]{adjustbox}";
      "\usepackage{eso-pic}";
      "\usepackage{xcolor}";
      "\usepackage{anyfontsize}";
      "\usepackage[outline]{contour}";
      "\usepackage[papersize={14cm,9cm}, margin=0.5cm, marginratio=1:1]{geometry}";
      "\setlength{\parindent}{0pt}";
      "\setlength{\parskip}{0pt}";
      "\AddToShipoutPictureBG{";
      "    \ifodd\value{page}";
      "      \AtPageCenter{";
      "        \includegraphics[width=\paperwidth,height=\paperheight,valign=M,center=-0.55em]{" +:+ background_image +:+ "}%";
      "        }";
      "    \fi";
      "}";
      "";
      "\begin{document}";
      "\vspace{0.5cm}";
      "\begin{center}";
      "\fontfamily{phv}\selectfont \fontsize{60}{72}\selectfont \textcolor{white}{\contour{black}{\textbf{" +:+ callsign +:+ "}}}";
      "\end{center}";
      "\vspace{4.5cm}";
      "\hfill";
      "\begin{minipage}{0.5\textwidth}";
      "\begin{center}";
      "{\huge {\fontfamily{phv}\selectfont \textcolor{white}{\contour{black}{\textbf{" +:+ operator_name +:+ "}}}}}";
      "";
      "\vspace{6pt}";
      "{\Large {\fontfamily{phv}\selectfont \textcolor{white}{\contour{black}{\textbf{" +:+ qth_city +:+ ", " +:+ country +:+ "}}}}}";
      "\end{center}";
      "\end{minipage}";
      "\newpage";
      "\begin{minipage}{0.6\textwidth}";
      "{\Large \textbf{" +:+ callsign +:+ "}} \quad {\textbf{" +:+ operator_name +:+ "}}";
      "";
      "{\small " +:+ qth_city +:+ ", " +:+ qth_state +:+ ", " +:+ country +:+ "}";
      "";
      "{\small Grid: " +:+ grid +:+ " \quad CQ: " +:+ cq_zone +:+ " \quad ITU: " +:+ itu_zone +:+ "}";
      "";
      "{\small " +:+ email +:+ " \quad " +:+ qrz_url +:+ "}";
      "";
      "\end{minipage}";
      "\hfill";
      "\begin{minipage}{0.35\textwidth}";
      "\begin{tabular}{ | m{11.7em} | }";
      "\hline";
      "{\scriptsize VIA \vphantom{$\int\limits_{\dfrac aa}$} " +:+ via +:+ "}\\";
      "\hline";
      "{\scriptsize TO STATION \vphantom{$\int\limits_{\dfrac aa}$} " +:+ to_station +:+ "}\\";
      "\hline";
      "\end{tabular}";
      "\end{minipage}";
      "";
      "\smallskip";
      "";
      "\begin{center}";
      "\begin{tabular}{|w{c}{5em}|w{c}{6.5em}|w{c}{6em}|w{c}{4em}|w{c}{4em}|w{c}{4em}|}";
      "\hline";
      "{\footnotesize Your Call}&{\footnotesize Date (D/M/Y)}&{\footnotesize Time (UTC)}&{\footnotesize Band}&{\footnotesize Mode}&{\footnotesize Report}\\";
      "\hline";
      "\vphantom{$\dfrac b b$} " +:+ their_call +:+ " & " +:+ date +:+ " & " +:+ time +:+ " & " +:+ band +:+ " & " +:+ mode +:+ " & " +:+ report +:+ " \\";
      "\hline";
      "\end{tabular}";
      "";
      "\bigskip";
      "";
      "\begin{tabular}{|w{c}{4em}|w{c}{20em}|w{c}{4em}|w{c}{3.9em}|}";
      "\hline";
      "{\footnotesize My QTH} & \multicolumn{3}{l|}{{\footnotesize \vphantom{$\dfrac b b$} " +:+ home_check +:+ " Home \enspace " +:+ portable_check +:+ " Portable: " +:+ portable_location +:+ "}} \\";
      "\hline";
      "{\footnotesize Transceiver} & {\footnotesize \vphantom{$\dfrac b b$} " +:+ transceiver +:+ "} & {\footnotesize Power} & {\footnotesize \vphantom{$\dfrac b b$} " +:+ power +:+ " W} \\";
      "\hline";
      "{\footnotesize Antenna} & {\footnotesize \vphantom{$\dfrac b b$} " +:+ antenna +:+ "} & {\footnotesize Via Sat.} & {\footnotesize \vphantom{$\dfrac b b$} " +:+ satellite +:+ "} \\";
      "\hline";
      "\end{tabular}";
      "\end{center}";
      "\vspace{3pt}";
      "\begin{minipage}{0.65\textwidth}";
      "{\footnotesize Thanking you for: \quad " +:+ qso_check +:+ " our QSO \quad " +:+ swl_check +:+ " your SWL report}";
      "\end{minipage}";
      "\hfill";
      "\begin{minipage}{0.3\textwidth}";
      "{\footnotesize QSL \quad \quad " +:+ pse_check +:+ " PSE \quad " +:+ tnx_check +:+ " TNX}";
      "\end{minipage}";
      "";
      "\begin{minipage}{0.65\textwidth}";
      "\vspace{2em}";
      "\includegraphics[width=" +:+ logo1_scale +:+ "\textwidth,valign=m]{" +:+ logo1 +:+ "}";
      "\includegraphics[width=" +:+ logo2_scale +:+ "\textwidth,valign=m]{" +:+ logo2 +:+ "}";
      "\includegraphics[width=" +:+ logo3_scale +:+ "\textwidth,valign=m]{" +:+ logo3 +:+ "}";
      "\end{minipage}";
      "\hfill";
      "\begin{minipage}{0.3\textwidth}";
      "\vspace{0.5em}";
      "{\footnotesize VY 73,}";
      "";
      "\vspace{1.5em}";
      "\makebox{\rule[-0.5em]{11em}{0.4pt}}";
      "\end{minipage}";
      "";
      "\end{document}"
  ].

Definition latex_code : string := unlines latex_lines.
End latex_code.

(** [generate_latex_code]: read every field, resolve the image defaults and
    the six check boxes, and fill the document skeleton. *)
Definition generate_latex_code : M string :=
  callsign ← get_field_value "callsign";
  operator_name ← get_field_value "operator_name";
  qth_city ← get_field_value "qth_city";
  qth_state ← get_field_value "qth_state";
  country ← get_field_value "country";
  grid ← get_field_value "grid";
  cq_zone ← get_field_value "cq_zone";
  itu_zone ← get_field_value "itu_zone";
  email ← get_field_value "email";
  qrz_url ← get_field_value "qrz_url";
  via ← get_field_value "via";
  to_station ← get_field_value "to_station";
  their_call ← get_field_value "their_call";
  date ← get_field_value "date";
  time ← get_field_value "time";
  band ← get_field_value "band";
  mode ← get_field_value "mode";
  report ← get_field_value "report";
  qth_type ← get_field_value "qth_type";
  portable_location ← get_field_value "portable_location";
  qsl_type ← get_field_value "qsl_type";
  qsl_request ← get_field_value "qsl_request";
  transceiver ← get_field_value "transceiver";
  power ← get_field_value "power";
  antenna ← get_field_value "antenna";
  satellite ← get_field_value "satellite";
  background_image ← (raw ← get_field_value "background_image"; mret (py_or raw "foto_antenas.jpg"));
  logo1 ← (raw ← get_field_value "logo1"; mret (py_or raw "logo_ure_negro.png"));
  logo1_scale ← (raw ← get_field_value "logo1_scale"; mret (py_or raw "0.07"));
  logo2 ← (raw ← get_field_value "logo2"; mret (py_or raw "qrz_com.png"));
  logo2_scale ← (raw ← get_field_value "logo2_scale"; mret (py_or raw "0.2"));
  logo3 ← (raw ← get_field_value "logo3"; mret (py_or raw "lotw.png"));
  logo3_scale ← (raw ← get_field_value "logo3_scale"; mret (py_or raw "0.1"));
  let home_check := home_check qth_type in
  let portable_check := portable_check qth_type in
  let qso_check := qso_check qsl_type in
  let swl_check := swl_check qsl_type in
  let pse_check := pse_check qsl_request in
  let tnx_check := tnx_check qsl_request in
  mret (latex_code
    callsign operator_name qth_city qth_state country grid cq_zone itu_zone
    email qrz_url via to_station their_call date time band mode report
    portable_location transceiver power antenna satellite background_image
    logo1 logo1_scale logo2 logo2_scale logo3 logo3_scale home_check
    portable_check qso_check swl_check pse_check tnx_check).

(** ** The form store: construction, defaults, saving and loading *)

(** [Entry.insert(0, value)] puts [value] in front of the text of an entry;
    [Entry.delete(0, END)] empties it; [StringVar.set(value)] replaces the
    value of a string variable. *)
Definition entry_insert0 (value : string) (field : widget) : widget :=
  match field with
  | Entry text => Entry (value +:+ text)
  | StringVar v => StringVar v
  end.

Definition entry_delete_all (field : widget) : widget :=
  match field with
  | Entry _ => Entry ""
  | StringVar v => StringVar v
  end.

Definition stringvar_set (value : string) (field : widget) : widget :=
  match field with
  | StringVar _ => StringVar value
  | Entry text => Entry text
  end.

(** The entries [setup_station_tab] creates, in the order of the code:
    station details, equipment, background image, the three logos each
    followed by its scale. *)
Definition station_entries : list string :=
  [ "callsign"; "operator_name"; "qth_city"; "qth_state"; "country";
    "grid"; "cq_zone"; "itu_zone"; "email"; "qrz_url";
    "transceiver"; "power"; "antenna"; "satellite";
    "background_image";
    "logo1"; "logo1_scale"; "logo2"; "logo2_scale"; "logo3"; "logo3_scale" ].

Definition add_entry (fields : gmap string widget) (field_name : string)
  : gmap string widget :=
  <[field_name := Entry ""]> fields.

Definition setup_station_tab (fields : gmap string widget) : gmap string widget :=
  foldl add_entry fields station_entries.

Definition setup_contact_tab (fields : gmap string widget) : gmap string widget :=
  let fields := foldl add_entry fields [ "via"; "to_station" ] in
  let fields :=
    foldl add_entry fields
      [ "their_call"; "date"; "time"; "band"; "mode"; "report" ] in
  let fields := <["qth_type" := StringVar "home"]> fields in
  let fields := add_entry fields "portable_location" in
  let fields := <["qsl_type" := StringVar "qso"]> fields in
  <["qsl_request" := StringVar "tnx"]> fields.

(** [init_cli_defaults]. *)
Definition init_cli_defaults : gmap string string :=
  list_to_map
    [ ("callsign", "EA7HQL");
      ("operator_name", "Andrés Ortiz");
      ("qth_city", "Torremolinos");
      ("qth_state", "Málaga");
      ("country", "SPAIN");
      ("grid", "IM76SP");
      ("cq_zone", "14");
      ("itu_zone", "37");
      ("email", "ea7hql@gmail.com");
      ("qrz_url", "https://www.qrz.com");
      ("via", "");
      ("to_station", "");
      ("their_call", "");
      ("date", "");
      ("time", "");
      ("band", "");
      ("mode", "");
      ("report", "");
      ("qth_type", "home");
      ("portable_location", "");
      ("qsl_type", "qso");
      ("qsl_request", "tnx");
      ("transceiver", "");
      ("power", "");
      ("antenna", "");
      ("satellite", "");
      ("background_image", "foto_antenas.jpg");
      ("logo1", "logo_ure_negro.png");
      ("logo1_scale", "0.07");
      ("logo2", "qrz_com.png");
      ("logo2_scale", "0.2");
      ("logo3", "lotw.png");
      ("logo3_scale", "0.1") ].

(** The object [__init__] builds in command-line mode ([root] is [None]). *)
Definition cli_generator : QSLCardGenerator :=
  {| root := false; fields := ∅; data := init_cli_defaults;
     status_label := None |}.

(** The object [__init__] has built in GUI mode when it reaches its last
    statement, the call of [load_settings]: the status bar says "Ready" and
    every widget is as its tab made it. *)
Definition new_form : QSLCardGenerator :=
  {| root := true;
     fields := setup_contact_tab (setup_station_tab ∅);
     data := ∅;
     status_label := Some "Ready" |}.

Definition update_status (message : string) (self : QSLCardGenerator)
  : QSLCardGenerator :=
  match status_label self with
  | Some _ =>
      {| root := root self; fields := fields self; data := data self;
         status_label := Some message |}
  | None => self
  end.

Definition set_fields (fields' : gmap string widget) (self : QSLCardGenerator)
  : QSLCardGenerator :=
  {| root := root self; fields := fields'; data := data self;
     status_label := status_label self |}.

(** *** The world outside the object *)

Inductive messagebox : Type :=
| showinfo (title message : string)
| showerror (title message : string)
| askyesno (title message : string) (answer : bool).

(** The settings file holds a JSON object of strings, kept here as the
    dictionary [json.load] returns for it (an association list in the order
    of the file), or something [json.load] rejects with the given message. *)
Inductive disk_file : Type :=
| JsonObject (settings : list (string * string))
| Unreadable (error : string).

(** [settings_store]: the file at [self.settings_file], [None] when there is
    none. [messageboxes]: the dialogs shown, latest first. [temp_dirs]: the
    scratch directories that exist, newest first, each a map from file name
    to content. [saved_pdfs]: the copies made for the user, path and
    content. *)
Record World : Type := mkWorld {
  settings_store : option disk_file;
  messageboxes : list messagebox;
  temp_dirs : list (gmap string string);
  saved_pdfs : list (string * string)
}.

Definition show (box : messagebox) (w : World) : World :=
  {| settings_store := settings_store w;
     messageboxes := box :: messageboxes w;
     temp_dirs := temp_dirs w;
     saved_pdfs := saved_pdfs w |}.

Definition write_settings (settings : list (string * string)) (w : World) : World :=
  {| settings_store := Some (JsonObject settings);
     messageboxes := messageboxes w;
     temp_dirs := temp_dirs w;
     saved_pdfs := saved_pdfs w |}.

(** The expansion of [~/.qsl_generator_settings.json] is left unexpanded in
    the texts that quote it. *)
Definition settings_file : string := "~/.qsl_generator_settings.json".

(** *** Dictionaries in insertion order *)

(** [settings[k] = v]: replace the value of an existing key in place, or
    add the key at the end. *)
Fixpoint dict_setitem (settings : list (string * string)) (k v : string)
  : list (string * string) :=
  match settings with
  | [] => [(k, v)]
  | (k', v') :: rest =>
      if (k' =? k)%string then (k, v) :: rest
      else (k', v') :: dict_setitem rest k v
  end.

(** *** [save_settings] *)

Definition save_fields : list string :=
  [ "callsign"; "operator_name"; "qth_city"; "qth_state"; "country";
    "grid"; "cq_zone"; "itu_zone"; "email"; "qrz_url";
    "transceiver"; "power"; "antenna"; "satellite";
    "background_image"; "logo1"; "logo2"; "logo3";
    "logo1_scale"; "logo2_scale"; "logo3_scale" ].

(** The loop of [save_settings]: the dictionary that is written. *)
Definition collect_settings (self : QSLCardGenerator) : list (string * string) :=
  foldl
    (fun settings field_name =>
       match fields self !! field_name with
       | Some field =>
           match field with
           | StringVar _ => dict_setitem settings field_name (widget_get field)
           | Entry _ => dict_setitem settings field_name (widget_get field)
           end
       | None => settings
       end)
    [] save_fields.

(** [write_error] is the message of the exception raised while the file is
    opened or written, [None] when the write succeeds. *)
Definition save_settings (write_error : option string)
    (self : QSLCardGenerator) (w : World) : QSLCardGenerator * World :=
  let settings := collect_settings self in
  match write_error with
  | None =>
      let w := write_settings settings w in
      let w := show (showinfo "Success"
                 ("Default settings saved to:" +:+ nl +:+ settings_file)) w in
      (update_status "Settings saved successfully" self, w)
  | Some e =>
      let w := show (showerror "Error" ("Failed to save settings: " +:+ e)) w in
      (update_status ("Error saving settings: " +:+ e) self, w)
  end.

(** *** [load_settings] *)

Definition defaults : list (string * string) :=
  [ ("callsign", "EA7HQL");
    ("operator_name", "Andrés Ortiz");
    ("qth_city", "Torremolinos");
    ("qth_state", "Málaga");
    ("country", "SPAIN");
    ("grid", "IM76SP");
    ("cq_zone", "14");
    ("itu_zone", "37");
    ("email", "ea7hql@gmail.com");
    ("qrz_url", "https://www.qrz.com");
    ("transceiver", "");
    ("power", "");
    ("antenna", "");
    ("satellite", "");
    ("background_image", "foto_antenas.jpg");
    ("logo1", "logo_ure_negro.png");
    ("logo1_scale", "0.07");
    ("logo2", "qrz_com.png");
    ("logo2_scale", "0.2");
    ("logo3", "lotw.png");
    ("logo3_scale", "0.1") ].

(** One turn of the loop taken when there is no settings file: the value is
    inserted in front of what an entry holds; a string variable is skipped. *)
Definition insert_default (fields : gmap string widget) (item : string * string)
  : gmap string widget :=
  let '(field_name, value) := item in
  match fields !! field_name with
  | Some field =>
      match field with
      | StringVar _ => fields
      | Entry _ => <[field_name := entry_insert0 value field]> fields
      end
  | None => fields
  end.

(** One turn of the loop over a loaded file: the field takes the value. *)
Definition load_item (fields : gmap string widget) (item : string * string)
  : gmap string widget :=
  let '(field_name, value) := item in
  match fields !! field_name with
  | Some field =>
      match field with
      | StringVar _ => <[field_name := stringvar_set value field]> fields
      | Entry _ =>
          <[field_name := entry_insert0 value (entry_delete_all field)]> fields
      end
  | None => fields
  end.

Definition load_settings (self : QSLCardGenerator) (w : World)
  : QSLCardGenerator * World :=
  match settings_store w with
  | None =>
      let self := set_fields (foldl insert_default (fields self) defaults) self in
      (update_status "Default values loaded (no saved settings found)" self, w)
  | Some (JsonObject settings) =>
      let self := set_fields (foldl load_item (fields self) settings) self in
      (update_status ("Settings loaded from " +:+ settings_file) self, w)
  | Some (Unreadable e) =>
      let w := show (showerror "Error" ("Failed to load settings: " +:+ e)) w in
      (update_status ("Error loading settings: " +:+ e) self, w)
  end.

(** The whole of [__init__] in GUI mode. *)
Definition gui_generator (w : World) : QSLCardGenerator * World :=
  load_settings new_form w.

(** ** The PDF wrapper *)

Inductive pdf_exn : Type :=
| TimeoutExpired
| RenderError (e : exn).

(** What [subprocess.run] does: it raises [TimeoutExpired] after 30 s, or
    the process ends, leaving [outputs] (file name and content) in the
    scratch directory and [stderr]. *)
Inductive run_outcome : Type :=
| TimedOut
| Completed (outputs : list (string * string)) (stderr : string).

(** What the surroundings answer during one call of [generate_pdf]:
    whether [pdflatex] is on the path, which paths exist (regular, readable
    files) and what they hold, the answer to the question about missing
    images, the outcome of the run, and the path chosen in the save dialog
    (empty when the dialog is cancelled). *)
Record pdf_env : Type := mkPdfEnv {
  which_pdflatex : bool;
  path_exists : string -> bool;
  file_content : string -> string;
  continue_anyway : bool;
  run : run_outcome;
  asksaveasfilename : string
}.

Definition slash : ascii := ascii_of_nat 47.

Fixpoint has_slash (s : string) : bool :=
  match s with
  | EmptyString => false
  | String c s' => if Ascii.eqb c slash then true else has_slash s'
  end.

(** [os.path.basename]: what follows the last slash. *)
Fixpoint basename (path : string) : string :=
  match path with
  | EmptyString => ""
  | String c rest =>
      if has_slash rest then basename rest
      else if Ascii.eqb c slash then rest else path
  end.

(** [s.split('\n')]. *)
Fixpoint split_lines (s : string) : list string :=
  match s with
  | EmptyString => [""]
  | String c rest =>
      if Ascii.eqb c (ascii_of_nat 10) then "" :: split_lines rest
      else
        match split_lines rest with
        | line :: lines => String c line :: lines
        | [] => [String c ""]
        end
  end.

(** [sub in s]. *)
Definition contains (sub s : string) : bool :=
  match String.index 0 sub s with
  | Some _ => true
  | None => false
  end.

Definition mkdtemp (w : World) : World :=
  {| settings_store := settings_store w;
     messageboxes := messageboxes w;
     temp_dirs := ∅ :: temp_dirs w;
     saved_pdfs := saved_pdfs w |}.

(** Write a file into the scratch directory made last. *)
Definition write_temp (name content : string) (w : World) : World :=
  {| settings_store := settings_store w;
     messageboxes := messageboxes w;
     temp_dirs :=
       match temp_dirs w with
       | temp_dir :: others => <[name := content]> temp_dir :: others
       | [] => []
       end;
     saved_pdfs := saved_pdfs w |}.

(** [shutil.rmtree(temp_dir)] on the scratch directory made last. *)
Definition rmtree (w : World) : World :=
  {| settings_store := settings_store w;
     messageboxes := messageboxes w;
     temp_dirs := tail (temp_dirs w);
     saved_pdfs := saved_pdfs w |}.

Definition read_temp (name : string) (w : World) : option string :=
  match temp_dirs w with
  | temp_dir :: _ => temp_dir !! name
  | [] => None
  end.

Definition copy_out (save_path content : string) (w : World) : World :=
  {| settings_store := settings_store w;
     messageboxes := messageboxes w;
     temp_dirs := temp_dirs w;
     saved_pdfs := (save_path, content) :: saved_pdfs w |}.

(** The four image paths, with the same defaults as in the renderer. *)
Definition image_files : M (list string) :=
  background_image ← (raw ← get_field_value "background_image"; mret (py_or raw "foto_antenas.jpg"));
  logo1 ← (raw ← get_field_value "logo1"; mret (py_or raw "logo_ure_negro.png"));
  logo2 ← (raw ← get_field_value "logo2"; mret (py_or raw "qrz_com.png"));
  logo3 ← (raw ← get_field_value "logo3"; mret (py_or raw "lotw.png"));
  mret [background_image; logo1; logo2; logo3].

(** The loop that stages the images: an existing one is copied under its
    base name, another is noted as missing. *)
Definition stage_image (env : pdf_env) (acc : World * list string) (img : string)
  : World * list string :=
  let '(w, missing_images) := acc in
  if path_exists env img then
    (write_temp (basename img) (file_content env img) w, missing_images)
  else (w, (missing_images ++ [img])%list).

Definition missing_images_question (missing_images : list string) : string :=
  "The following image files were not found:" +:+ nl +:+
  String.concat nl (map (fun img => "  • " +:+ img) missing_images) +:+
  nl +:+ nl +:+ "Do you want to continue anyway?" +:+ nl +:+
  "(PDF generation may fail)".

(** The text shown when no PDF came out: the lines of the log that carry an
    error marker, ten at most, or the standard error of the process when
    there is no log. *)
Definition error_report (log : option string) (stderr : string) : string :=
  let error_msg := "PDF generation failed." +:+ nl +:+ nl in
  match log with
  | Some log_content =>
      let lines := split_lines log_content in
      let error_lines :=
        filter (fun l => contains "!" l || contains "Error" l || contains "error" l)
          lines in
      match error_lines with
      | [] => error_msg
      | _ :: _ =>
          error_msg +:+ "Errors found:" +:+ nl +:+
          String.concat nl (take 10 error_lines)
      end
  | None => error_msg +:+ stderr
  end.

(** What follows the run when it ends in time: hand out the PDF or show the
    errors, then remove the scratch directory. *)
Definition after_run (env : pdf_env) (stderr : string)
    (self : QSLCardGenerator) (w : World) : QSLCardGenerator * World :=
  let '(self, w) :=
    match read_temp "qsl_card.pdf" w with
    | Some pdf =>
        let save_path := asksaveasfilename env in
        match save_path with
        | String _ _ =>
            let w := copy_out save_path pdf w in
            let self := update_status ("PDF saved successfully to " +:+ save_path) self in
            (self,
             show (showinfo "Success"
                    ("PDF generated successfully!" +:+ nl +:+ nl +:+
                     "Saved to:" +:+ nl +:+ save_path +:+ nl +:+ nl +:+
                     "You can now print your QSL card.")) w)
        | EmptyString =>
            (update_status "PDF generation cancelled by user" self, w)
        end
    | None =>
        let error_msg := error_report (read_temp "qsl_card.log" w) stderr in
        (update_status "PDF generation failed" self,
         show (showerror "Error" error_msg) w)
    end in
  (self, rmtree w).

(** How the body of the [try] statement ends. *)
Inductive try_outcome : Type :=
| Returned
| Raised (e : pdf_exn).

(** The body of the [try] statement of [generate_pdf]. *)
Definition generate_pdf_try (env : pdf_env) (self : QSLCardGenerator) (w : World)
  : try_outcome * QSLCardGenerator * World :=
  match generate_latex_code self with
  | (Raise e, self) => (Raised (RenderError e), self, w)
  | (Ok latex_code, self) =>
      let w := mkdtemp w in
      let w := write_temp "qsl_card.tex" latex_code w in
      match image_files self with
      | (Raise e, self) => (Raised (RenderError e), self, w)
      | (Ok image_files, self) =>
          let '(w, missing_images) :=
            foldl (stage_image env) (w, []) image_files in
          let proceed (w : World) :=
            let self := update_status "Running pdflatex (this may take a moment)..." self in
            match run env with
            | TimedOut => (Raised TimeoutExpired, self, w)
            | Completed outputs stderr =>
                let w := foldl (fun w '(name, content) => write_temp name content w)
                           w outputs in
                let '(self, w) := after_run env stderr self w in
                (Returned, self, w)
            end in
          match missing_images with
          | _ :: _ =>
              let response := continue_anyway env in
              let w := show (askyesno "Missing Images"
                               (missing_images_question missing_images) response) w in
              if negb response then
                (Returned, update_status "PDF generation cancelled" self, rmtree w)
              else proceed w
          | [] => proceed w
          end
      end
  end.

(** [str(e)]. *)
Definition exn_str (e : exn) : string :=
  match e with
  | KeyError key => "'" +:+ key +:+ "'"
  | AttributeError attr => attr
  end.

Definition pdflatex_missing : string :=
  "pdflatex is not installed or not in PATH." +:+ nl +:+ nl +:+
  "Please install LaTeX:" +:+ nl +:+
  "  Ubuntu/Debian: sudo apt-get install texlive-latex-base texlive-fonts-recommended" +:+ nl +:+
  "  Fedora: sudo dnf install texlive-scheme-basic" +:+ nl +:+
  "  macOS: brew install mactex".

Definition timeout_message : string :=
  "PDF generation timed out. Check your LaTeX installation.".

Definition generate_pdf (env : pdf_env) (self : QSLCardGenerator) (w : World)
  : QSLCardGenerator * World :=
  if negb (which_pdflatex env) then
    (self, show (showerror "Error" pdflatex_missing) w)
  else
    let self := update_status "Generating PDF..." self in
    match generate_pdf_try env self w with
    | (Returned, self, w) => (self, w)
    | (Raised TimeoutExpired, self, w) =>
        let w := show (showerror "Error" timeout_message) w in
        (update_status "PDF generation timed out" self, w)
    | (Raised (RenderError e), self, w) =>
        let w := show (showerror "Error" ("Failed to generate PDF: " +:+ exn_str e)) w in
        (update_status ("Error: " +:+ exn_str e) self, w)
    end.

(** ** Vocabulary of the statements *)

(** What a read of [field_name] returns, as a function of the object. *)
Definition field_value (self : QSLCardGenerator) (field_name : string) : string :=
  if root self then
    match fields self !! field_name with
    | Some field => widget_get field
    | None => ""
    end
  else dict_get (data self) field_name "".

(** The field is missing from the record the object holds. *)
Definition absent (self : QSLCardGenerator) (field_name : string) : Prop :=
  if root self then fields self !! field_name = None
  else data self !! field_name = None.

(** The renderer as a function of the record alone: the skeleton filled
    with the values of the record, the image fields resolved against their
    defaults and the check boxes derived from the choice fields. *)
Definition render (record : string -> string) : string :=
  latex_code
    (record "callsign") (record "operator_name") (record "qth_city")
    (record "qth_state") (record "country") (record "grid")
    (record "cq_zone") (record "itu_zone") (record "email")
    (record "qrz_url") (record "via") (record "to_station")
    (record "their_call") (record "date") (record "time") (record "band")
    (record "mode") (record "report") (record "portable_location")
    (record "transceiver") (record "power") (record "antenna")
    (record "satellite")
    (py_or (record "background_image") "foto_antenas.jpg")
    (py_or (record "logo1") "logo_ure_negro.png")
    (py_or (record "logo1_scale") "0.07")
    (py_or (record "logo2") "qrz_com.png")
    (py_or (record "logo2_scale") "0.2")
    (py_or (record "logo3") "lotw.png")
    (py_or (record "logo3_scale") "0.1")
    (home_check (record "qth_type")) (portable_check (record "qth_type"))
    (qso_check (record "qsl_type")) (swl_check (record "qsl_type"))
    (pse_check (record "qsl_request")) (tnx_check (record "qsl_request")).

(** [part] occurs in [doc]. *)
Definition occurs_in (part doc : string) : Prop :=
  exists pre post : string, doc = pre +:+ part +:+ post.

(** The lines of the skeleton that carry the check boxes, the power and the
    images, as functions of what is interpolated. *)
Definition qth_row (home portable location : string) : string :=
  "{\footnotesize My QTH} & \multicolumn{3}{l|}{{\footnotesize \vphantom{$\dfrac b b$} "
  +:+ home +:+ " Home \enspace " +:+ portable +:+ " Portable: " +:+ location +:+ "}} \\".

Definition thanks_row (qso swl : string) : string :=
  "{\footnotesize Thanking you for: \quad " +:+ qso +:+ " our QSO \quad "
  +:+ swl +:+ " your SWL report}".

Definition qsl_row (pse tnx : string) : string :=
  "{\footnotesize QSL \quad \quad " +:+ pse +:+ " PSE \quad " +:+ tnx +:+ " TNX}".

Definition power_cell (power : string) : string :=
  "{\footnotesize Power} & {\footnotesize \vphantom{$\dfrac b b$} " +:+ power +:+ " W} \\".

Definition equipment_row (transceiver power : string) : string :=
  "{\footnotesize Transceiver} & {\footnotesize \vphantom{$\dfrac b b$} "
  +:+ transceiver +:+ "} & " +:+ power_cell power.

Definition background_line (image : string) : string :=
  "        \includegraphics[width=\paperwidth,height=\paperheight,valign=M,center=-0.55em]{"
  +:+ image +:+ "}%".

Definition logo_line (scale logo : string) : string :=
  "\includegraphics[width=" +:+ scale +:+ "\textwidth,valign=m]{" +:+ logo +:+ "}".

(** One side of a pair of check boxes is checked and the other is not. *)
Definition exactly_one_checked (a b : string) : Prop :=
  (a = checked /\ b = unchecked) \/ (a = unchecked /\ b = checked).

(** The value a defaultable field is rendered with. *)
Definition resolved (self : QSLCardGenerator) (field_name default : string) : string :=
  if decide (field_value self field_name = "") then default
  else field_value self field_name.

(** *** Sample objects *)

(** A command-line object whose record has no field at all. *)
Definition blank_record : QSLCardGenerator :=
  {| root := false; fields := ∅; data := ∅; status_label := None |}.

(** A form with no widget at all. *)
Definition blank_form : QSLCardGenerator :=
  {| root := true; fields := ∅; data := ∅; status_label := Some "Ready" |}.

(** The command-line record with a QTH type, a QSL type and a QSL request
    outside the documented literals. *)
Definition mobile_station : QSLCardGenerator :=
  {| root := false; fields := ∅;
     data := <["qth_type" := "mobile"]>
               (<["qsl_type" := "eqsl"]>
                  (<["qsl_request" := "direct"]> init_cli_defaults));
     status_label := None |}.

(** The command-line record with its own images and scales. *)
Definition custom_images : QSLCardGenerator :=
  {| root := false; fields := ∅;
     data := <["background_image" := "shack.jpg"]>
               (<["logo1" := "club.png"]>
                  (<["logo1_scale" := "0.5"]> init_cli_defaults));
     status_label := None |}.

(** A world with nothing in it. *)
Definition empty_world : World :=
  {| settings_store := None; messageboxes := []; temp_dirs := [];
     saved_pdfs := [] |}.

(** The form as [__init__] leaves it when there is no settings file. *)
Definition first_form : QSLCardGenerator := fst (gui_generator empty_world).

(** That form after the operator has typed another callsign and a power. *)
Definition edited_form : QSLCardGenerator :=
  set_fields
    (<["callsign" := Entry "EA1ABC"]> (<["power" := Entry "100"]> (fields first_form)))
    first_form.

(** *** Reading a dictionary kept in insertion order *)

(** The value of the first item with key [k]. *)
Fixpoint dict_lookup (k : string) (settings : list (string * string))
  : option string :=
  match settings with
  | [] => None
  | (k', v) :: rest => if decide (k' = k) then Some v else dict_lookup k rest
  end.

(** What a loaded value makes of a widget: a string variable is set to it,
    an entry is emptied and then takes it. *)
Definition loaded (value : string) (field : widget) : widget :=
  match field with
  | StringVar _ => stringvar_set value field
  | Entry _ => entry_insert0 value (entry_delete_all field)
  end.

(** One turn of the loop of [save_settings], whatever the kind of widget. *)
Definition save_step (self : QSLCardGenerator)
    (settings : list (string * string)) (field_name : string)
  : list (string * string) :=
  match fields self !! field_name with
  | Some field => dict_setitem settings field_name (widget_get field)
  | None => settings
  end.

(** *** Surroundings of a PDF run *)

(** Every image is there, the operator would go on, nothing is saved. *)
Definition timeout_env : pdf_env :=
  {| which_pdflatex := true;
     path_exists := fun _ => true;
     file_content := fun _ => "image";
     continue_anyway := true;
     run := TimedOut;
     asksaveasfilename := "" |}.

(** The same surroundings with a run that ends in time and writes a PDF. *)
Definition completed_env : pdf_env :=
  {| which_pdflatex := true;
     path_exists := fun _ => true;
     file_content := fun _ => "image";
     continue_anyway := true;
     run := Completed [("qsl_card.pdf", "%PDF"); ("qsl_card.log", "ok")] "";
     asksaveasfilename := "" |}.


(** ** [clear_contact_fields] *)

Definition contact_fields : list string :=
  [ "via"; "to_station"; "their_call"; "date"; "time";
    "band"; "mode"; "report"; "portable_location" ].

(** The three fields behind the radio buttons. *)
Definition choice_fields : list string :=
  [ "qth_type"; "qsl_type"; "qsl_request" ].

(** One turn of the loop of [clear_contact_fields]: an entry is emptied, a
    string variable is passed over. *)
Definition clear_field (fields : gmap string widget) (field_name : string)
  : gmap string widget :=
  match fields !! field_name with
  | Some field =>
      match field with
      | StringVar _ => fields
      | Entry _ => <[field_name := entry_delete_all field]> fields
      end
  | None => fields
  end.

(** [self.fields[field_name].set(value)]: the subscript raises [KeyError]
    when the form has no such field, and an entry has no method [set]. *)
Definition set_choice (field_name value : string) (fields : gmap string widget)
  : result (gmap string widget) :=
  match dict_getitem fields field_name with
  | Raise e => Raise e
  | Ok field =>
      match field with
      | StringVar _ => Ok (<[field_name := stringvar_set value field]> fields)
      | Entry _ => Raise (AttributeError "set")
      end
  end.

(** [answer] is what the operator answers to the question. Nothing catches
    an exception here: the method ends with it, and what was done before
    stays done. *)
Definition clear_contact_fields (answer : bool) (self : QSLCardGenerator)
    (w : World) : result unit * QSLCardGenerator * World :=
  let w := show (askyesno "Clear Fields" "Clear all contact details fields?"
                   answer) w in
  if answer then
    let fields1 := foldl clear_field (fields self) contact_fields in
    match set_choice "qth_type" "home" fields1 with
    | Raise e => (Raise e, set_fields fields1 self, w)
    | Ok fields2 =>
        match set_choice "qsl_type" "qso" fields2 with
        | Raise e => (Raise e, set_fields fields2 self, w)
        | Ok fields3 =>
            match set_choice "qsl_request" "tnx" fields3 with
            | Raise e => (Raise e, set_fields fields3 self, w)
            | Ok fields4 =>
                (Ok tt,
                 update_status "Contact fields cleared (equipment preserved)"
                   (set_fields fields4 self),
                 w)
            end
        end
    end
  else (Ok tt, self, w).

(** *** Further vocabulary *)

(** The kind of a widget: a string variable, or an entry. *)
Definition is_stringvar (field : widget) : bool :=
  match field with
  | StringVar _ => true
  | Entry _ => false
  end.

(** What [save_settings] writes for one name of its list. *)
Definition saved_item (self : QSLCardGenerator) (field_name : string)
  : option (string * string) :=
  (fun field => (field_name, widget_get field)) <$> fields self !! field_name.

(** The four image paths [generate_pdf] stages: what [image_files]
    returns. *)
Definition image_paths (self : QSLCardGenerator) : list string :=
  [ py_or (field_value self "background_image") "foto_antenas.jpg";
    py_or (field_value self "logo1") "logo_ure_negro.png";
    py_or (field_value self "logo2") "qrz_com.png";
    py_or (field_value self "logo3") "lotw.png" ].


(** The images of the list that do not exist. *)
Definition missing_among (env : pdf_env) (imgs : list string) : list string :=
  filter (fun img => path_exists env img = false) imgs.

(** The first twenty-two lines of the skeleton, which interpolate nothing. *)
Definition preamble : string :=
  unlines
    (take 22
       (latex_lines "" "" "" "" "" "" "" "" "" "" "" "" "" "" "" "" "" ""
          "" "" "" "" "" "" "" "" "" "" "" "" "" "" "" "" "" "")).

(** A form with the contact entries but without the three choice fields. *)
Definition entries_only_form : QSLCardGenerator :=
  {| root := true;
     fields := <["via" := Entry "bureau"]> (<["date" := Entry "01/02/2024"]> ∅);
     data := ∅;
     status_label := Some "Ready" |}.

(** The form of a first start with a contact typed in and the portable,
    SWL and PSE buttons chosen. *)
Definition contact_form : QSLCardGenerator :=
  set_fields
    (<["their_call" := Entry "DL1XYZ"]>
       (<["qth_type" := StringVar "portable"]>
          (<["qsl_type" := StringVar "swl"]>
             (<["qsl_request" := StringVar "pse"]> (fields first_form)))))
    first_form.



(** * Properties *)

(** ** Strings and lines *)

Lemma append_assoc (a b c : string) : (a +:+ b) +:+ c = a +:+ (b +:+ c).
Proof.
  induction a as [|ch a IH]; [reflexivity|].
  change (String ch ((a +:+ b) +:+ c) = String ch (a +:+ (b +:+ c))).
  now rewrite IH.
Qed.

Lemma append_nil_r (a : string) : a +:+ "" = a.
Proof.
  induction a as [|ch a IH]; [reflexivity|].
  change (String ch (a +:+ "") = String ch a). now rewrite IH.
Qed.

Lemma unlines_app (l1 l2 : list string) :
  unlines (l1 ++ l2)%list = unlines l1 +:+ unlines l2.
Proof.
  induction l1 as [|line l1 IH]; [reflexivity|].
  change (line +:+ nl +:+ unlines (l1 ++ l2)%list
          = (line +:+ nl +:+ unlines l1) +:+ unlines l2).
  now rewrite IH, !append_assoc.
Qed.

Lemma occurs_in_unlines (lines : list string) (i : nat) (line : string) :
  lines !! i = Some line -> occurs_in line (unlines lines).
Proof.
  intros Hi. exists (unlines (take i lines)), (nl +:+ unlines (drop (S i) lines)).
  rewrite <- (take_drop_middle lines i line Hi) at 1.
  now rewrite unlines_app.
Qed.

Lemma occurs_in_suffix (pre part doc : string) :
  occurs_in (pre +:+ part) doc -> occurs_in part doc.
Proof.
  intros (a & b & ->). exists (a +:+ pre), b. now rewrite !append_assoc.
Qed.

Lemma py_or_resolved (self : QSLCardGenerator) (field_name default : string) :
  py_or (field_value self field_name) default = resolved self field_name default.
Proof.
  unfold resolved, py_or. destruct (field_value self field_name); reflexivity.
Qed.

(** ** Running the renderer *)

Lemma get_field_value_run (field_name : string) (self : QSLCardGenerator) :
  get_field_value field_name self = (Ok (field_value self field_name), self).
Proof.
  unfold get_field_value, field_value, mbind, M_bind, bind, get_self, lift,
    dict_contains, dict_getitem, mret, M_ret, ret.
  destruct (root self); [|reflexivity].
  destruct (fields self !! field_name) as [[text|value]|]; reflexivity.
Qed.

Lemma bind_get_field_value {B} (field_name : string) (k : string -> M B)
    (self : QSLCardGenerator) :
  (get_field_value field_name ≫= k) self = k (field_value self field_name) self.
Proof.
  unfold mbind, M_bind, bind. now rewrite get_field_value_run.
Qed.

Lemma bind_ret {A B} (a : A) (k : A -> M B) (self : QSLCardGenerator) :
  (mret a ≫= k) self = k a self.
Proof. reflexivity. Qed.

Lemma bind_bind {A B C} (m : M A) (k : A -> M B) (h : B -> M C)
    (self : QSLCardGenerator) :
  ((m ≫= k) ≫= h) self = (m ≫= (fun a => k a ≫= h)) self.
Proof.
  unfold mbind, M_bind, bind. destruct (m self) as [[a|e] self']; reflexivity.
Qed.

Ltac run_reads :=
  repeat first
    [ rewrite bind_get_field_value; cbv beta
    | rewrite bind_bind; cbv beta
    | rewrite bind_ret; cbv beta ];
  cbv zeta.

(** The renderer returns the skeleton filled from the record and leaves the
    object as it found it. *)
Lemma generate_latex_code_run (self : QSLCardGenerator) :
  generate_latex_code self = (Ok (render (field_value self)), self).
Proof. unfold generate_latex_code. run_reads. reflexivity. Qed.

Lemma image_files_run (self : QSLCardGenerator) :
  image_files self =
  (Ok [ py_or (field_value self "background_image") "foto_antenas.jpg";
        py_or (field_value self "logo1") "logo_ure_negro.png";
        py_or (field_value self "logo2") "qrz_com.png";
        py_or (field_value self "logo3") "lotw.png" ], self).
Proof. unfold image_files. run_reads. reflexivity. Qed.

(** Every line of the skeleton occurs in the rendered document. *)
Lemma render_line (record : string -> string) (i : nat) (line : string) :
  latex_lines
    (record "callsign") (record "operator_name") (record "qth_city")
    (record "qth_state") (record "country") (record "grid")
    (record "cq_zone") (record "itu_zone") (record "email")
    (record "qrz_url") (record "via") (record "to_station")
    (record "their_call") (record "date") (record "time") (record "band")
    (record "mode") (record "report") (record "portable_location")
    (record "transceiver") (record "power") (record "antenna")
    (record "satellite")
    (py_or (record "background_image") "foto_antenas.jpg")
    (py_or (record "logo1") "logo_ure_negro.png")
    (py_or (record "logo1_scale") "0.07")
    (py_or (record "logo2") "qrz_com.png")
    (py_or (record "logo2_scale") "0.2")
    (py_or (record "logo3") "lotw.png")
    (py_or (record "logo3_scale") "0.1")
    (home_check (record "qth_type")) (portable_check (record "qth_type"))
    (qso_check (record "qsl_type")) (swl_check (record "qsl_type"))
    (pse_check (record "qsl_request")) (tnx_check (record "qsl_request"))
    !! i = Some line ->
  occurs_in line (render record).
Proof. intros Hi. unfold render, latex_code. now apply occurs_in_unlines with i. Qed.

Lemma render_qth_row (record : string -> string) :
  occurs_in
    (qth_row (home_check (record "qth_type")) (portable_check (record "qth_type"))
       (record "portable_location"))
    (render record).
Proof. apply render_line with 79. reflexivity. Qed.

Lemma render_thanks_row (record : string -> string) :
  occurs_in
    (thanks_row (qso_check (record "qsl_type")) (swl_check (record "qsl_type")))
    (render record).
Proof. apply render_line with 89. reflexivity. Qed.

Lemma render_qsl_row (record : string -> string) :
  occurs_in
    (qsl_row (pse_check (record "qsl_request")) (tnx_check (record "qsl_request")))
    (render record).
Proof. apply render_line with 93. reflexivity. Qed.

Lemma render_equipment_row (record : string -> string) :
  occurs_in (equipment_row (record "transceiver") (record "power")) (render record).
Proof.
  apply render_line with 81. reflexivity.
Qed.

(** ** Check boxes *)

Lemma checked_neq_unchecked : checked <> unchecked.
Proof. discriminate. Qed.

Lemma check_checked_iff (value literal : string) :
  (if (value =? literal)%string then checked else unchecked) = checked
  <-> value = literal.
Proof.
  destruct (String.eqb_spec value literal) as [Heq|Hne]; split; intros H;
    try reflexivity; try assumption.
  - symmetry in H. now apply checked_neq_unchecked in H.
  - contradiction.
Qed.

Lemma check_unchecked_iff (value literal : string) :
  (if (value =? literal)%string then checked else unchecked) = unchecked
  <-> value <> literal.
Proof.
  destruct (String.eqb_spec value literal) as [Heq|Hne]; split; intros H;
    try reflexivity; try assumption.
  - now apply checked_neq_unchecked in H.
  - contradiction.
Qed.

(** The three rows of check boxes of the document rendered for [self]. *)
Lemma checkbox_rows (self : QSLCardGenerator) :
  exists doc : string,
    generate_latex_code self = (Ok doc, self) /\
    occurs_in
      (qth_row (home_check (field_value self "qth_type"))
         (portable_check (field_value self "qth_type"))
         (field_value self "portable_location")) doc /\
    occurs_in
      (thanks_row (qso_check (field_value self "qsl_type"))
         (swl_check (field_value self "qsl_type"))) doc /\
    occurs_in
      (qsl_row (pse_check (field_value self "qsl_request"))
         (tnx_check (field_value self "qsl_request"))) doc.
Proof.
  exists (render (field_value self)). split; [apply generate_latex_code_run|].
  split; [apply render_qth_row|]. split; [apply render_thanks_row|].
  apply render_qsl_row.
Qed.

(** Two literals that differ cannot both equal the value of the field. *)
Lemma pair_not_both (value lit1 lit2 : string) :
  lit1 <> lit2 ->
  ~ ((if (value =? lit1)%string then checked else unchecked) = checked /\
     (if (value =? lit2)%string then checked else unchecked) = checked).
Proof.
  intros Hne [H1 H2].
  apply (proj1 (check_checked_iff _ _)) in H1.
  apply (proj1 (check_checked_iff _ _)) in H2.
  apply Hne. now rewrite <- H1, <- H2.
Qed.

(** The markers of a pair, by the value of the choice field. *)
Lemma pair_cases (value lit1 lit2 : string) :
  lit1 <> lit2 ->
  let m1 := if (value =? lit1)%string then checked else unchecked in
  let m2 := if (value =? lit2)%string then checked else unchecked in
  (value = lit1 -> m1 = checked /\ m2 = unchecked) /\
  (value = lit2 -> m1 = unchecked /\ m2 = checked) /\
  (value <> lit1 -> value <> lit2 -> m1 = unchecked /\ m2 = unchecked).
Proof.
  intros Hne m1 m2. subst m1 m2.
  split; [|split].
  - intros ->. split; [now apply check_checked_iff|].
    apply check_unchecked_iff. exact Hne.
  - intros ->. split; [|now apply check_checked_iff].
    apply check_unchecked_iff. congruence.
  - intros H1 H2. split; apply check_unchecked_iff; assumption.
Qed.

(** C8: in the rendered document each of the three rows of check boxes
    carries the two markers computed from its choice field; a marker is the
    checked glyph exactly when the field equals that marker's own literal,
    the two literals of a pair differ, and so no pair has both of its
    markers checked. *)
Theorem at_most_one_checked (self : QSLCardGenerator) :
  let qth_type := field_value self "qth_type" in
  let qsl_type := field_value self "qsl_type" in
  let qsl_request := field_value self "qsl_request" in
  exists doc : string,
    generate_latex_code self = (Ok doc, self) /\
    occurs_in
      (qth_row (home_check qth_type) (portable_check qth_type)
         (field_value self "portable_location")) doc /\
    occurs_in (thanks_row (qso_check qsl_type) (swl_check qsl_type)) doc /\
    occurs_in (qsl_row (pse_check qsl_request) (tnx_check qsl_request)) doc /\
    (home_check qth_type = checked <-> qth_type = "home") /\
    (portable_check qth_type = checked <-> qth_type = "portable") /\
    (qso_check qsl_type = checked <-> qsl_type = "qso") /\
    (swl_check qsl_type = checked <-> qsl_type = "swl") /\
    (pse_check qsl_request = checked <-> qsl_request = "pse") /\
    (tnx_check qsl_request = checked <-> qsl_request = "tnx") /\
    ~ (home_check qth_type = checked /\ portable_check qth_type = checked) /\
    ~ (qso_check qsl_type = checked /\ swl_check qsl_type = checked) /\
    ~ (pse_check qsl_request = checked /\ tnx_check qsl_request = checked).
Proof.
  intros qth_type qsl_type qsl_request.
  destruct (checkbox_rows self) as (doc & Hdoc & Hqth & Hthanks & Hqsl).
  exists doc. repeat (split; [assumption|]).
  repeat (split; [apply check_checked_iff|]).
  split; [|split]; apply pair_not_both; discriminate.
Qed.

(** C8 on the record whose choice fields hold none of the literals. *)
Lemma at_most_one_checked_witness :
  exists doc : string,
    generate_latex_code mobile_station = (Ok doc, mobile_station) /\
    occurs_in (qth_row unchecked unchecked "") doc /\
    ~ (home_check "mobile" = checked /\ portable_check "mobile" = checked).
Proof.
  destruct (at_most_one_checked mobile_station)
    as (doc & Hdoc & Hqth & _ & _ & _ & _ & _ & _ & _ & _ & Hnot & _).
  exists doc. split; [exact Hdoc|]. split; [exact Hqth | exact Hnot].
Defined.

(** C1, as amended: each marker is checked exactly when the choice field
    equals that marker's own literal. When the field holds one of the two
    literals of its pair, that side is checked and the other is not; for
    any other value both markers of the pair are unchecked. *)
Theorem checkbox_pairs (self : QSLCardGenerator) :
  let qth_type := field_value self "qth_type" in
  let qsl_type := field_value self "qsl_type" in
  let qsl_request := field_value self "qsl_request" in
  exists doc : string,
    generate_latex_code self = (Ok doc, self) /\
    occurs_in
      (qth_row (home_check qth_type) (portable_check qth_type)
         (field_value self "portable_location")) doc /\
    occurs_in (thanks_row (qso_check qsl_type) (swl_check qsl_type)) doc /\
    occurs_in (qsl_row (pse_check qsl_request) (tnx_check qsl_request)) doc /\
    ((qth_type = "home" ->
      home_check qth_type = checked /\ portable_check qth_type = unchecked) /\
     (qth_type = "portable" ->
      home_check qth_type = unchecked /\ portable_check qth_type = checked) /\
     (qth_type <> "home" -> qth_type <> "portable" ->
      home_check qth_type = unchecked /\ portable_check qth_type = unchecked)) /\
    ((qsl_type = "qso" ->
      qso_check qsl_type = checked /\ swl_check qsl_type = unchecked) /\
     (qsl_type = "swl" ->
      qso_check qsl_type = unchecked /\ swl_check qsl_type = checked) /\
     (qsl_type <> "qso" -> qsl_type <> "swl" ->
      qso_check qsl_type = unchecked /\ swl_check qsl_type = unchecked)) /\
    ((qsl_request = "pse" ->
      pse_check qsl_request = checked /\ tnx_check qsl_request = unchecked) /\
     (qsl_request = "tnx" ->
      pse_check qsl_request = unchecked /\ tnx_check qsl_request = checked) /\
     (qsl_request <> "pse" -> qsl_request <> "tnx" ->
      pse_check qsl_request = unchecked /\ tnx_check qsl_request = unchecked)).
Proof.
  intros qth_type qsl_type qsl_request.
  destruct (checkbox_rows self) as (doc & Hdoc & Hqth & Hthanks & Hqsl).
  exists doc. repeat (split; [assumption|]).
  split; [|split]; apply pair_cases; discriminate.
Qed.

(** C1 as amended, on the built-in record: home, QSO and TNX are the
    checked sides. *)
Lemma checkbox_pairs_witness :
  exists doc : string,
    generate_latex_code cli_generator = (Ok doc, cli_generator) /\
    occurs_in (qth_row checked unchecked "") doc /\
    occurs_in (thanks_row checked unchecked) doc /\
    occurs_in (qsl_row unchecked checked) doc /\
    (home_check "home" = checked /\ portable_check "home" = unchecked) /\
    (qso_check "qso" = checked /\ swl_check "qso" = unchecked) /\
    (pse_check "tnx" = unchecked /\ tnx_check "tnx" = checked).
Proof.
  destruct (checkbox_pairs cli_generator)
    as (doc & Hdoc & Hqth & Hthanks & Hqsl & (Hhome & _) & (Hqso & _) & (_ & Htnx & _)).
  exists doc. split; [exact Hdoc|].
  split; [exact Hqth|]. split; [exact Hthanks|]. split; [exact Hqsl|].
  split; [apply Hhome; reflexivity|].
  split; [apply Hqso; reflexivity | apply Htnx; reflexivity].
Defined.

(** C1 as stated fails: the record whose QTH type is "mobile" is rendered
    with both the home and the portable marker unchecked, so the value is
    not routed to the portable side and the pair has no checked marker; the
    same holds for the other two pairs. *)
Lemma other_value_checks_neither :
  field_value mobile_station "qth_type" = "mobile" /\
  field_value mobile_station "qsl_type" = "eqsl" /\
  field_value mobile_station "qsl_request" = "direct" /\
  (exists doc : string,
     generate_latex_code mobile_station = (Ok doc, mobile_station) /\
     occurs_in (qth_row unchecked unchecked "") doc /\
     occurs_in (thanks_row unchecked unchecked) doc /\
     occurs_in (qsl_row unchecked unchecked) doc) /\
  portable_check (field_value mobile_station "qth_type") <> checked /\
  swl_check (field_value mobile_station "qsl_type") <> checked /\
  tnx_check (field_value mobile_station "qsl_request") <> checked /\
  ~ exactly_one_checked
      (home_check (field_value mobile_station "qth_type"))
      (portable_check (field_value mobile_station "qth_type")) /\
  ~ exactly_one_checked
      (qso_check (field_value mobile_station "qsl_type"))
      (swl_check (field_value mobile_station "qsl_type")) /\
  ~ exactly_one_checked
      (pse_check (field_value mobile_station "qsl_request"))
      (tnx_check (field_value mobile_station "qsl_request")).
Proof.
  split; [reflexivity|]. split; [reflexivity|]. split; [reflexivity|].
  split.
  { destruct (checkbox_rows mobile_station) as (doc & Hdoc & Hqth & Hthanks & Hqsl).
    exists doc. repeat split; assumption. }
  repeat split; try discriminate;
    intros [[H1 H2]|[H1 H2]]; discriminate.
Qed.

(** ** Defaults and pass-through *)

Lemma resolved_empty (self : QSLCardGenerator) (field_name default : string) :
  field_value self field_name = "" -> resolved self field_name default = default.
Proof. intros H. unfold resolved. now rewrite decide_True. Qed.

Lemma resolved_nonempty (self : QSLCardGenerator) (field_name default : string) :
  field_value self field_name <> "" ->
  resolved self field_name default = field_value self field_name.
Proof. intros H. unfold resolved. now rewrite decide_False. Qed.

(** C2: the rendered document is the skeleton filled with the raw value of
    every field but the seven defaultable ones, each of which is rendered
    as its literal default when its value is empty and as the value itself
    otherwise; the background line and the three logo lines of the document
    carry these resolved values. *)
Theorem default_substitution (self : QSLCardGenerator) :
  let raw := field_value self in
  let background_image := resolved self "background_image" "foto_antenas.jpg" in
  let logo1 := resolved self "logo1" "logo_ure_negro.png" in
  let logo1_scale := resolved self "logo1_scale" "0.07" in
  let logo2 := resolved self "logo2" "qrz_com.png" in
  let logo2_scale := resolved self "logo2_scale" "0.2" in
  let logo3 := resolved self "logo3" "lotw.png" in
  let logo3_scale := resolved self "logo3_scale" "0.1" in
  exists doc : string,
    generate_latex_code self = (Ok doc, self) /\
    doc =
      latex_code
        (raw "callsign") (raw "operator_name") (raw "qth_city")
        (raw "qth_state") (raw "country") (raw "grid") (raw "cq_zone")
        (raw "itu_zone") (raw "email") (raw "qrz_url") (raw "via")
        (raw "to_station") (raw "their_call") (raw "date") (raw "time")
        (raw "band") (raw "mode") (raw "report") (raw "portable_location")
        (raw "transceiver") (raw "power") (raw "antenna") (raw "satellite")
        background_image logo1 logo1_scale logo2 logo2_scale logo3 logo3_scale
        (home_check (raw "qth_type")) (portable_check (raw "qth_type"))
        (qso_check (raw "qsl_type")) (swl_check (raw "qsl_type"))
        (pse_check (raw "qsl_request")) (tnx_check (raw "qsl_request")) /\
    occurs_in (background_line background_image) doc /\
    occurs_in (logo_line logo1_scale logo1) doc /\
    occurs_in (logo_line logo2_scale logo2) doc /\
    occurs_in (logo_line logo3_scale logo3) doc /\
    (forall field_name default : string,
       raw field_name = "" -> resolved self field_name default = default) /\
    (forall field_name default : string,
       raw field_name <> "" -> resolved self field_name default = raw field_name).
Proof.
  intros raw background_image logo1 logo1_scale logo2 logo2_scale logo3 logo3_scale.
  subst raw background_image logo1 logo1_scale logo2 logo2_scale logo3 logo3_scale.
  exists (render (field_value self)).
  split; [apply generate_latex_code_run|].
  rewrite <- !py_or_resolved.
  split; [reflexivity|].
  split; [apply render_line with 22; reflexivity|].
  split; [apply render_line with 98; reflexivity|].
  split; [apply render_line with 99; reflexivity|].
  split; [apply render_line with 100; reflexivity|].
  split; intros field_name default H.
  - now apply resolved_empty.
  - now apply resolved_nonempty.
Qed.

(** C2 on a record with no field at all: every image line carries its
    default. *)
Lemma default_substitution_witness :
  exists doc : string,
    generate_latex_code blank_record = (Ok doc, blank_record) /\
    occurs_in (background_line "foto_antenas.jpg") doc /\
    occurs_in (logo_line "0.07" "logo_ure_negro.png") doc /\
    occurs_in (logo_line "0.2" "qrz_com.png") doc /\
    occurs_in (logo_line "0.1" "lotw.png") doc /\
    resolved blank_record "logo1" "logo_ure_negro.png" = "logo_ure_negro.png" /\
    resolved custom_images "logo1" "logo_ure_negro.png" = "club.png".
Proof.
  destruct (default_substitution blank_record)
    as (doc & Hdoc & _ & Hbg & Hl1 & Hl2 & Hl3 & Hempty & _).
  destruct (default_substitution custom_images)
    as (_ & _ & _ & _ & _ & _ & _ & _ & Hfull).
  exists doc. split; [exact Hdoc|].
  split; [exact Hbg|]. split; [exact Hl1|]. split; [exact Hl2|].
  split; [exact Hl3|].
  split; [apply Hempty; reflexivity|].
  apply (Hfull "logo1" "logo_ure_negro.png"). discriminate.
Defined.

(** ** Determinism, totality, frame *)

Lemma render_ext (r1 r2 : string -> string) :
  (forall field_name, r1 field_name = r2 field_name) -> render r1 = render r2.
Proof. intros H. unfold render. now rewrite !H. Qed.

(** C3: a second call of the renderer, made on the object the first call
    leaves, returns the same string as the first; and the string depends on
    nothing but the values read from the record: two objects that agree on
    every field yield the same string. *)
Theorem render_deterministic (self other : QSLCardGenerator) :
  fst (generate_latex_code (snd (generate_latex_code self)))
  = fst (generate_latex_code self) /\
  ((forall field_name, field_value self field_name = field_value other field_name) ->
   fst (generate_latex_code self) = fst (generate_latex_code other)).
Proof.
  rewrite !generate_latex_code_run. cbn [fst snd].
  split; [reflexivity|].
  intros H. f_equal. now apply render_ext.
Qed.

(** C3 on the command-line object and a copy of it that has a status bar. *)
Lemma render_deterministic_witness :
  let other :=
    {| root := false; fields := ∅; data := init_cli_defaults;
       status_label := Some "Ready" |} in
  fst (generate_latex_code (snd (generate_latex_code cli_generator)))
  = fst (generate_latex_code cli_generator) /\
  fst (generate_latex_code cli_generator) = fst (generate_latex_code other).
Proof.
  intros other.
  destruct (render_deterministic cli_generator other) as [Htwice Hsame].
  split; [exact Htwice|]. apply Hsame. intros field_name. reflexivity.
Defined.

Lemma absent_field_value (self : QSLCardGenerator) (field_name : string) :
  absent self field_name -> field_value self field_name = "".
Proof.
  unfold absent, field_value, dict_get.
  destruct (root self); intros ->; reflexivity.
Qed.

(** C4: whatever the object holds, the renderer returns a document and
    raises nothing, and so does every single read; a field that is missing
    from the record is read as the empty string, and as its default where
    the field is defaultable. *)
Theorem render_total (self : QSLCardGenerator) :
  (exists doc : string, generate_latex_code self = (Ok doc, self)) /\
  (forall field_name : string,
     exists value : string, get_field_value field_name self = (Ok value, self)) /\
  (forall field_name : string,
     absent self field_name -> get_field_value field_name self = (Ok "", self)) /\
  (forall field_name default : string,
     absent self field_name ->
     (raw ← get_field_value field_name; mret (py_or raw default)) self
     = (Ok default, self)).
Proof.
  split; [eexists; apply generate_latex_code_run|].
  split; [intros field_name; eexists; apply get_field_value_run|].
  split; intros field_name.
  - intros H. rewrite get_field_value_run. now rewrite absent_field_value.
  - intros default H. run_reads. now rewrite absent_field_value.
Qed.

(** C4 on a record with no field at all. *)
Lemma render_total_witness :
  (exists doc : string, generate_latex_code blank_record = (Ok doc, blank_record)) /\
  get_field_value "date" blank_record = (Ok "", blank_record) /\
  (raw ← get_field_value "logo2"; mret (py_or raw "qrz_com.png")) blank_record
  = (Ok "qrz_com.png", blank_record).
Proof.
  destruct (render_total blank_record) as (Hdoc & _ & Hread & Hdefault).
  split; [exact Hdoc|].
  split; [apply Hread; reflexivity | apply Hdefault; reflexivity].
Defined.

(** C9: the renderer, and every read it makes, returns the object as it
    received it, so every field reads the same after the call as before. *)
Theorem render_reads_only (self : QSLCardGenerator) :
  snd (generate_latex_code self) = self /\
  (forall field_name : string, snd (get_field_value field_name self) = self) /\
  (forall field_name : string,
     field_value (snd (generate_latex_code self)) field_name
     = field_value self field_name).
Proof.
  rewrite generate_latex_code_run. split; [reflexivity|].
  split; [|reflexivity].
  intros field_name. now rewrite get_field_value_run.
Qed.

(** C10: in the rendered document the power cell holds the value of the
    power field followed at once by " W"; with an empty power field the
    cell still holds the unit, with no number before it. *)
Theorem power_unit (self : QSLCardGenerator) :
  exists doc : string,
    generate_latex_code self = (Ok doc, self) /\
    occurs_in
      ("{\footnotesize Power} & {\footnotesize \vphantom{$\dfrac b b$} "
       +:+ field_value self "power" +:+ " W} \\") doc /\
    (field_value self "power" = "" ->
     occurs_in
       "{\footnotesize Power} & {\footnotesize \vphantom{$\dfrac b b$}  W} \\" doc).
Proof.
  exists (render (field_value self)).
  split; [apply generate_latex_code_run|].
  assert (Hcell : occurs_in (power_cell (field_value self "power"))
                    (render (field_value self))).
  { pose proof (render_equipment_row (field_value self)) as Hrow.
    unfold equipment_row in Hrow. rewrite <- 2 append_assoc in Hrow.
    now apply occurs_in_suffix in Hrow. }
  split; [exact Hcell|].
  intros Hempty. rewrite Hempty in Hcell. exact Hcell.
Qed.

(** C10 on the built-in record, whose power field is empty. *)
Lemma power_unit_witness :
  exists doc : string,
    generate_latex_code cli_generator = (Ok doc, cli_generator) /\
    occurs_in
      "{\footnotesize Power} & {\footnotesize \vphantom{$\dfrac b b$}  W} \\" doc.
Proof.
  destruct (power_unit cli_generator) as (doc & Hdoc & _ & Hempty).
  exists doc. split; [exact Hdoc | apply Hempty; reflexivity].
Defined.

(** The built-in record: its callsign is set in the large block of the
    first side, and the identity lines of the second side carry the
    operator, the place and the zones. *)
Example builtin_record_identity :
  exists doc : string,
    generate_latex_code cli_generator = (Ok doc, cli_generator) /\
    occurs_in
      "\fontfamily{phv}\selectfont \fontsize{60}{72}\selectfont \textcolor{white}{\contour{black}{\textbf{EA7HQL}}}"
      doc /\
    occurs_in "{\Large \textbf{EA7HQL}} \quad {\textbf{Andrés Ortiz}}" doc /\
    occurs_in "{\small Torremolinos, Málaga, SPAIN}" doc /\
    occurs_in "{\small Grid: IM76SP \quad CQ: 14 \quad ITU: 37}" doc.
Proof.
  exists (render (field_value cli_generator)).
  split; [apply generate_latex_code_run|].
  split; [apply render_line with 30; vm_compute; reflexivity|].
  split; [apply render_line with 44; vm_compute; reflexivity|].
  split; [apply render_line with 46; vm_compute; reflexivity|].
  apply render_line with 48. vm_compute. reflexivity.
Qed.

(** ** Saving and loading the defaults *)

Lemma widget_get_loaded (value : string) (field : widget) :
  widget_get (loaded value field) = value.
Proof. destruct field as [text|v]; cbn; [apply append_nil_r | reflexivity]. Qed.

Lemma dict_lookup_None (k : string) (settings : list (string * string)) :
  k ∉ settings.*1 -> dict_lookup k settings = None.
Proof.
  induction settings as [|[k' v] rest IH]; [reflexivity|].
  cbn. intros Hnotin. apply not_elem_of_cons in Hnotin as [Hne Hrest].
  rewrite decide_False by congruence. now apply IH.
Qed.

(** Assignment to a key: its keys, and what is then read. *)
Lemma dict_setitem_keys (settings : list (string * string)) (k v : string) :
  (dict_setitem settings k v).*1
  = if decide (k ∈ settings.*1) then settings.*1 else (settings.*1 ++ [k])%list.
Proof.
  induction settings as [|[k' v'] rest IH].
  - cbn. rewrite decide_False; [reflexivity | apply not_elem_of_nil].
  - cbn [dict_setitem]. destruct (String.eqb_spec k' k) as [->|Hne].
    + cbn. rewrite decide_True; [reflexivity | apply elem_of_cons; now left].
    + cbn [fmap list_fmap fst]. change (list_fmap _ _ fst ?l) with (l.*1).
      rewrite IH. destruct (decide (k ∈ rest.*1)) as [Hin|Hnotin].
      * rewrite decide_True; [reflexivity | apply elem_of_cons; now right].
      * rewrite decide_False; [reflexivity|].
        intros [Heq|Hin]%elem_of_cons; [congruence | contradiction].
Qed.

Lemma dict_setitem_NoDup (settings : list (string * string)) (k v : string) :
  NoDup settings.*1 -> NoDup (dict_setitem settings k v).*1.
Proof.
  intros Hnd. rewrite dict_setitem_keys.
  destruct (decide (k ∈ settings.*1)) as [Hin|Hnotin]; [assumption|].
  apply NoDup_app. split; [assumption|]. split.
  - intros x Hx Hk. apply list_elem_of_singleton in Hk. congruence.
  - apply NoDup_singleton.
Qed.

Lemma dict_lookup_setitem (settings : list (string * string)) (k k' v : string) :
  dict_lookup k (dict_setitem settings k' v)
  = if decide (k' = k) then Some v else dict_lookup k settings.
Proof.
  induction settings as [|[k0 v0] rest IH].
  - reflexivity.
  - cbn [dict_setitem]. destruct (String.eqb_spec k0 k') as [->|Hne].
    + cbn. destruct (decide (k' = k)); reflexivity.
    + cbn. rewrite IH.
      destruct (decide (k0 = k)) as [->|Hne0]; [|reflexivity].
      now rewrite decide_False by congruence.
Qed.

Lemma foldl_pointwise {A B} (f g : A -> B -> A) (l : list B) (a : A) :
  (forall a b, f a b = g a b) -> foldl f a l = foldl g a l.
Proof.
  intros Hfg. revert a. induction l as [|b l IH]; intros a; [reflexivity|].
  cbn. now rewrite Hfg, IH.
Qed.

Lemma collect_settings_fold (self : QSLCardGenerator) :
  collect_settings self = foldl (save_step self) [] save_fields.
Proof.
  unfold collect_settings. apply foldl_pointwise. intros settings field_name.
  unfold save_step. destruct (fields self !! field_name) as [[text|v]|]; reflexivity.
Qed.

Lemma save_fold_lookup (self : QSLCardGenerator) (names : list string)
    (settings : list (string * string)) (k : string) :
  dict_lookup k (foldl (save_step self) settings names)
  = match (if decide (k ∈ names) then widget_get <$> fields self !! k else None) with
    | Some v => Some v
    | None => dict_lookup k settings
    end.
Proof.
  revert settings. induction names as [|name names IH]; intros settings.
  - cbn. rewrite decide_False; [reflexivity | apply not_elem_of_nil].
  - cbn [foldl]. rewrite IH.
    destruct (decide (k ∈ names)) as [Hin|Hnotin].
    + rewrite decide_True by (apply elem_of_cons; now right).
      destruct (widget_get <$> fields self !! k) as [v|] eqn:Hk; [reflexivity|].
      unfold save_step. destruct (fields self !! name) as [field|] eqn:Hname;
        [|reflexivity].
      rewrite dict_lookup_setitem. destruct (decide (name = k)) as [->|Hne];
        [|reflexivity].
      rewrite Hname in Hk. discriminate.
    + unfold save_step at 1. destruct (decide (name = k)) as [->|Hne].
      * rewrite decide_True by (apply elem_of_cons; now left).
        destruct (fields self !! k) as [field|]; cbn; [|reflexivity].
        rewrite dict_lookup_setitem. now rewrite decide_True.
      * rewrite decide_False
          by (intros [Heq|Hin]%elem_of_cons; [congruence | contradiction]).
        destruct (fields self !! name) as [field|]; [|reflexivity].
        rewrite dict_lookup_setitem. now rewrite decide_False.
Qed.

Lemma save_fold_keys (self : QSLCardGenerator) (names : list string)
    (settings : list (string * string)) :
  NoDup settings.*1 ->
  NoDup (foldl (save_step self) settings names).*1 /\
  (forall k, k ∈ (foldl (save_step self) settings names).*1 ->
             k ∈ settings.*1 \/ k ∈ names).
Proof.
  revert settings. induction names as [|name names IH]; intros settings Hnd.
  - cbn. split; [assumption | intros k Hk; now left].
  - cbn [foldl].
    assert (Hstep : NoDup (save_step self settings name).*1).
    { unfold save_step. destruct (fields self !! name); [|assumption].
      now apply dict_setitem_NoDup. }
    destruct (IH _ Hstep) as [Hnd' Hkeys]. split; [assumption|].
    intros k Hk. destruct (Hkeys k Hk) as [Hin|Hin].
    + unfold save_step in Hin. destruct (fields self !! name) as [field|].
      * rewrite dict_setitem_keys in Hin.
        destruct (decide (name ∈ settings.*1)); [now left|].
        apply elem_of_app in Hin as [Hin|Hin]; [now left|].
        apply list_elem_of_singleton in Hin as ->. right. apply elem_of_cons. now left.
      * now left.
    + right. apply elem_of_cons. now right.
Qed.

(** The loop of [load_settings] over a dictionary without repeated keys:
    each widget named in it takes the value, every other one is kept. *)
Lemma load_fold_lookup (settings : list (string * string))
    (fields : gmap string widget) (k : string) :
  NoDup settings.*1 ->
  foldl load_item fields settings !! k
  = match dict_lookup k settings with
    | Some v => loaded v <$> fields !! k
    | None => fields !! k
    end.
Proof.
  revert fields. induction settings as [|[k' v] rest IH]; intros fields Hnd.
  - reflexivity.
  - cbn [fmap list_fmap fst] in Hnd. apply NoDup_cons in Hnd as [Hnotin Hnd].
    cbn [foldl]. rewrite (IH _ Hnd). cbn [dict_lookup].
    assert (Hitem : forall j, load_item fields (k', v) !! j
              = if decide (k' = j) then loaded v <$> fields !! j else fields !! j).
    { intros j. unfold load_item.
      destruct (fields !! k') as [[text|value]|] eqn:Hk'.
      - rewrite lookup_insert. destruct (decide (k' = j)) as [<-|]; [|reflexivity].
        now rewrite Hk'.
      - rewrite lookup_insert. destruct (decide (k' = j)) as [<-|]; [|reflexivity].
        now rewrite Hk'.
      - destruct (decide (k' = j)) as [<-|]; [|reflexivity]. now rewrite Hk'. }
    rewrite Hitem. destruct (decide (k' = k)) as [->|Hne].
    + now rewrite dict_lookup_None.
    + reflexivity.
Qed.

Lemma save_settings_store (source : QSLCardGenerator) (w : World) :
  settings_store (snd (save_settings None source w))
  = Some (JsonObject (collect_settings source)).
Proof. reflexivity. Qed.

Lemma load_settings_fields (target : QSLCardGenerator) (w : World)
    (settings : list (string * string)) :
  settings_store w = Some (JsonObject settings) ->
  fields (fst (load_settings target w)) = foldl load_item (fields target) settings.
Proof.
  intros Hstore. unfold load_settings. rewrite Hstore.
  unfold update_status, set_fields. cbn [fst status_label].
  destruct (status_label target); reflexivity.
Qed.

(** C5: after [save_settings] has written the settings of [source] and
    [load_settings] has read them into [target], the file holds keys of the
    allow-list only; every allow-listed field that both forms have reads in
    [target] as it does in [source]; every field outside the allow-list,
    and every field [source] does not have, is in [target] as it was
    before the load. *)
Theorem settings_round_trip (source target : QSLCardGenerator) (w : World) :
  let w1 := snd (save_settings None source w) in
  let target' := fst (load_settings target w1) in
  (exists settings : list (string * string),
     settings_store w1 = Some (JsonObject settings) /\
     forall k, k ∈ settings.*1 -> k ∈ save_fields) /\
  (forall (name : string) (field : widget),
     name ∈ save_fields ->
     fields source !! name = Some field ->
     is_Some (fields target !! name) ->
     widget_get <$> fields target' !! name = Some (widget_get field)) /\
  (forall name : string,
     name ∉ save_fields -> fields target' !! name = fields target !! name) /\
  (forall name : string,
     fields source !! name = None -> fields target' !! name = fields target !! name).
Proof.
  intros w1 target'.
  destruct (save_fold_keys source save_fields [] (NoDup_nil_2 : NoDup ([] : list (string * string)).*1))
    as [Hnd Hkeys].
  rewrite <- collect_settings_fold in Hnd, Hkeys.
  assert (Hlookup : forall name,
            fields target' !! name
            = match (if decide (name ∈ save_fields)
                     then widget_get <$> fields source !! name else None) with
              | Some v => loaded v <$> fields target !! name
              | None => fields target !! name
              end).
  { intros name. subst target' w1.
    rewrite (load_settings_fields _ _ _ (save_settings_store source w)).
    rewrite (load_fold_lookup _ _ _ Hnd).
    rewrite collect_settings_fold, save_fold_lookup.
    destruct (decide (name ∈ save_fields));
      [destruct (widget_get <$> fields source !! name)|]; reflexivity. }
  split; [|split; [|split]].
  - exists (collect_settings source). split; [apply save_settings_store|].
    intros k Hk. destruct (Hkeys k Hk) as [Hin|Hin]; [|assumption].
    now apply not_elem_of_nil in Hin.
  - intros name field Hin Hsource [field' Htarget].
    rewrite Hlookup, decide_True, Hsource, Htarget by assumption. cbn.
    now rewrite widget_get_loaded.
  - intros name Hnotin. rewrite Hlookup. now rewrite decide_False.
  - intros name Hsource. rewrite Hlookup, Hsource.
    destruct (decide (name ∈ save_fields)); reflexivity.
Qed.

(** C5 from the edited form into a fresh one: the callsign comes back, and
    the callsign and date of the contact stay empty. *)
Lemma settings_round_trip_witness :
  let w1 := snd (save_settings None edited_form empty_world) in
  let target' := fst (load_settings new_form w1) in
  widget_get <$> fields target' !! "callsign" = Some "EA1ABC" /\
  fields target' !! "their_call" = Some (Entry "") /\
  fields target' !! "date" = Some (Entry "").
Proof.
  intros w1 target'.
  destruct (settings_round_trip edited_form new_form empty_world)
    as (_ & Hsaved & Hother & _).
  split; [|split].
  - apply (Hsaved "callsign" (Entry "EA1ABC")).
    + repeat constructor.
    + vm_compute. reflexivity.
    + vm_compute. eexists. reflexivity.
  - subst target' w1. rewrite (Hother "their_call"); [vm_compute; reflexivity|].
    apply (bool_decide_unpack _). vm_compute. exact I.
  - subst target' w1. rewrite (Hother "date"); [vm_compute; reflexivity|].
    apply (bool_decide_unpack _). vm_compute. exact I.
Defined.

(** The loop taken when there is no settings file leaves alone every field
    that the defaults do not name. *)
Lemma insert_default_other (items : list (string * string))
    (fields : gmap string widget) (k : string) :
  k ∉ items.*1 -> foldl insert_default fields items !! k = fields !! k.
Proof.
  revert fields. induction items as [|[k' v] rest IH]; intros fields Hnotin.
  - reflexivity.
  - cbn [fmap list_fmap fst] in Hnotin.
    apply not_elem_of_cons in Hnotin as [Hne Hrest].
    cbn [foldl]. rewrite (IH _ Hrest). unfold insert_default.
    destruct (fields !! k') as [[text|value]|]; [|reflexivity|reflexivity].
    now rewrite lookup_insert_ne by congruence.
Qed.

Lemma first_load_fields (self : QSLCardGenerator) (w : World) :
  settings_store w = None ->
  load_settings self w
  = (update_status "Default values loaded (no saved settings found)"
       (set_fields (foldl insert_default (fields self) defaults) self), w).
Proof. intros Hstore. unfold load_settings. now rewrite Hstore. Qed.

(** The values held by the form after its first load, without a settings
    file, are those of the command-line record. *)
Lemma first_form_values :
  widget_get <$> foldl insert_default (fields new_form) defaults = init_cli_defaults.
Proof. vm_cast_no_check (eq_refl init_cli_defaults). Qed.

(** C6: when there is no settings file, the load that ends [__init__]
    shows no error and changes nothing outside the form; it says that the
    defaults were loaded; every field named in the built-in defaults is an
    entry holding exactly its default; every other field is as the tabs
    made it; and every field reads as in the built-in record of the
    command-line mode. *)
Theorem first_load_without_settings_file (w : World) :
  settings_store w = None ->
  let self := fst (gui_generator w) in
  snd (gui_generator w) = w /\
  status_label self = Some "Default values loaded (no saved settings found)" /\
  Forall (fun item => fields self !! item.1 = Some (Entry item.2)) defaults /\
  (forall name : string,
     name ∉ defaults.*1 -> fields self !! name = fields new_form !! name) /\
  (forall name : string,
     field_value self name = field_value cli_generator name).
Proof.
  intros Hstore self. subst self. unfold gui_generator.
  rewrite (first_load_fields _ _ Hstore). cbn [fst snd].
  split; [reflexivity|]. split; [reflexivity|].
  change (fields (update_status _ (set_fields ?f _))) with f.
  split; [|split].
  - repeat constructor.
  - intros name Hnotin. now apply insert_default_other.
  - intros name. unfold field_value.
    change (root (update_status _ (set_fields _ new_form))) with true.
    change (fields (update_status _ (set_fields ?f _))) with f.
    cbn [root cli_generator data]. unfold dict_get.
    rewrite <- first_form_values, lookup_fmap.
    destruct (foldl insert_default (fields new_form) defaults !! name); reflexivity.
Qed.

(** C6 in the empty world. *)
Lemma first_load_without_settings_file_witness :
  snd (gui_generator empty_world) = empty_world /\
  fields first_form !! "callsign" = Some (Entry "EA7HQL") /\
  field_value first_form "qsl_request" = "tnx" /\
  field_value first_form "their_call" = "".
Proof.
  destruct (first_load_without_settings_file empty_world eq_refl)
    as (Hworld & _ & Hdefaults & _ & Hread).
  split; [exact Hworld|].
  split; [exact (Forall_inv Hdefaults)|].
  split; [exact (Hread "qsl_request") | exact (Hread "their_call")].
Defined.

(** The hypothesis of a first load matters: the defaults are inserted in
    front of what an entry holds, so loading again without a settings file
    doubles them. *)
Remark second_load_without_settings_file :
  field_value (fst (load_settings first_form empty_world)) "callsign"
  = "EA7HQLEA7HQL".
Proof. vm_cast_no_check (eq_refl "EA7HQLEA7HQL"). Qed.

(** ** The PDF wrapper on a timeout *)

(** Staging the images keeps the scratch directories that exist, keeps the
    files already in the newest one, shows nothing, and notes an image as
    missing only if its path does not exist. *)
Lemma stage_images_keep (env : pdf_env) (imgs : list string) (w : World)
    (missing : list string) (temp_dir : gmap string string)
    (others : list (gmap string string)) (name : string) :
  temp_dirs w = temp_dir :: others ->
  is_Some (temp_dir !! name) ->
  exists (w' : World) (missing' : list string) (temp_dir' : gmap string string),
    foldl (stage_image env) (w, missing) imgs = (w', missing') /\
    temp_dirs w' = temp_dir' :: others /\
    is_Some (temp_dir' !! name) /\
    messageboxes w' = messageboxes w /\
    ((forall img, path_exists env img = true) -> missing' = missing).
Proof.
  revert w missing temp_dir.
  induction imgs as [|img imgs IH]; intros w missing temp_dir Hdirs Hname.
  - exists w, missing, temp_dir. repeat split; assumption || reflexivity.
  - cbn [foldl]. unfold stage_image at 2.
    destruct (path_exists env img) eqn:Hexists.
    + destruct (IH (write_temp (basename img) (file_content env img) w) missing
                  (<[basename img := file_content env img]> temp_dir))
        as (w' & missing' & temp_dir' & Hfold & Hdirs' & Hname' & Hboxes & Hmissing).
      * unfold write_temp. cbn [temp_dirs]. now rewrite Hdirs.
      * rewrite lookup_insert. destruct (decide (basename img = name)); [eauto | assumption].
      * exists w', missing', temp_dir'. repeat split; assumption.
    + destruct (IH w (missing ++ [img])%list temp_dir Hdirs Hname)
        as (w' & missing' & temp_dir' & Hfold & Hdirs' & Hname' & Hboxes & Hmissing).
      exists w', missing', temp_dir'. repeat split; try assumption.
      intros Hall. rewrite Hall in Hexists. discriminate.
Qed.

Lemma status_label_update_status (message : string) (self : QSLCardGenerator) :
  status_label (update_status message self)
  = (fun _ => message) <$> status_label self.
Proof.
  unfold update_status. destruct (status_label self) eqn:Hlabel; [reflexivity|].
  now rewrite Hlabel.
Qed.

(** Whenever the run is reached and times out, [generate_pdf] reports the
    timeout, and the scratch directory it made is still there, with the
    document in it. *)
Lemma timeout_keeps_scratch (env : pdf_env) (self : QSLCardGenerator) (w : World) :
  which_pdflatex env = true ->
  run env = TimedOut ->
  continue_anyway env = true \/ (forall img, path_exists env img = true) ->
  head (messageboxes (snd (generate_pdf env self w)))
  = Some (showerror "Error" timeout_message) /\
  status_label (fst (generate_pdf env self w))
  = (fun _ => "PDF generation timed out") <$> status_label self /\
  exists temp_dir : gmap string string,
    temp_dirs (snd (generate_pdf env self w)) = temp_dir :: temp_dirs w /\
    is_Some (temp_dir !! "qsl_card.tex").
Proof.
  intros Hwhich Hrun Hreached.
  unfold generate_pdf. rewrite Hwhich. cbn [negb].
  unfold generate_pdf_try. rewrite generate_latex_code_run, image_files_run.
  set (doc := render _). set (imgs := [_; _; _; _]).
  set (self1 := update_status "Generating PDF..." self).
  destruct (stage_images_keep env imgs
              (write_temp "qsl_card.tex" doc (mkdtemp w)) []
              (<["qsl_card.tex" := doc]> ∅) (temp_dirs w) "qsl_card.tex")
    as (w' & missing' & temp_dir' & Hfold & Hdirs' & Hname' & Hboxes & Hmissing).
  { reflexivity. }
  { rewrite lookup_insert_eq. eauto. }
  rewrite Hfold. cbv zeta. rewrite Hrun.
  assert (Hstatus : forall s : QSLCardGenerator,
            status_label
              (update_status "PDF generation timed out"
                 (update_status "Running pdflatex (this may take a moment)..."
                    (update_status "Generating PDF..." s)))
            = (fun _ => "PDF generation timed out") <$> status_label s).
  { intros s. rewrite !status_label_update_status.
    destruct (status_label s); reflexivity. }
  destruct missing' as [|img missing'].
  - cbn [fst snd]. split; [reflexivity|]. split; [apply Hstatus|].
    exists temp_dir'. split; [exact Hdirs' | exact Hname'].
  - destruct Hreached as [Hyes|Hall]; [|specialize (Hmissing Hall); discriminate].
    rewrite Hyes. cbn [negb fst snd].
    split; [reflexivity|]. split; [apply Hstatus|].
    exists temp_dir'. split; [exact Hdirs' | exact Hname'].
Qed.

(** Whenever the run ends in time, or the operator declines to go on
    without the missing images, every scratch directory that
    [generate_pdf] made is removed again. *)
Lemma completion_removes_scratch (env : pdf_env) (self : QSLCardGenerator) (w : World)
    (outputs : list (string * string)) (stderr : string) :
  which_pdflatex env = true ->
  run env = Completed outputs stderr ->
  temp_dirs (snd (generate_pdf env self w)) = temp_dirs w.
Proof.
  intros Hwhich Hrun.
  unfold generate_pdf. rewrite Hwhich. cbn [negb].
  unfold generate_pdf_try. rewrite generate_latex_code_run, image_files_run.
  set (doc := render _). set (imgs := [_; _; _; _]).
  set (self1 := update_status "Generating PDF..." self).
  destruct (stage_images_keep env imgs
              (write_temp "qsl_card.tex" doc (mkdtemp w)) []
              (<["qsl_card.tex" := doc]> ∅) (temp_dirs w) "qsl_card.tex")
    as (w' & missing' & temp_dir' & Hfold & Hdirs' & Hname' & Hboxes & Hmissing).
  { reflexivity. }
  { rewrite lookup_insert_eq. eauto. }
  rewrite Hfold. cbv zeta. rewrite Hrun.
  assert (Hwrite : forall (outs : list (string * string)) (v : World)
                     (d : gmap string string),
            temp_dirs v = d :: temp_dirs w ->
            exists d', temp_dirs
                         (foldl (fun w0 '(name, content) => write_temp name content w0)
                            v outs) = d' :: temp_dirs w).
  { induction outs as [|[name content] outs IH]; intros v d Hv; [eauto|].
    cbn [foldl]. apply (IH _ (<[name := content]> d)).
    unfold write_temp. cbn [temp_dirs]. now rewrite Hv. }
  assert (Hafter : forall (s : QSLCardGenerator) (v : World) (d : gmap string string),
            temp_dirs v = d :: temp_dirs w ->
            temp_dirs (snd (after_run env stderr s v)) = temp_dirs w).
  { intros s v d Hv. unfold after_run.
    destruct (read_temp "qsl_card.pdf" v);
      [destruct (asksaveasfilename env)|]; cbn; now rewrite Hv. }
  destruct missing' as [|img missing'].
  - destruct (Hwrite outputs w' temp_dir' Hdirs') as [d' Hd'].
    specialize (Hafter
      (update_status "Running pdflatex (this may take a moment)..." self1) _ _ Hd').
    destruct (after_run env stderr _ _) as [s2 w2]. exact Hafter.
  - destruct (continue_anyway env); cbn [negb].
    + destruct (Hwrite outputs
                  (show (askyesno "Missing Images"
                           (missing_images_question (img :: missing')) true) w')
                  temp_dir' Hdirs') as [d' Hd'].
      specialize (Hafter
        (update_status "Running pdflatex (this may take a moment)..." self1) _ _ Hd').
      destruct (after_run env stderr _ _) as [s2 w2]. exact Hafter.
    + cbn [snd rmtree show temp_dirs]. now rewrite Hdirs'.
Qed.

(** C7, at the failing input: on the form of a first start, with every
    image in place and a run of [pdflatex] that exceeds the timeout,
    [generate_pdf] does report the timeout, in a message box and in the
    status bar; but the scratch directory it made is still there
    afterwards, with the document and the four staged images in it. With a
    run that ends in time, on the same form, no scratch directory is
    left. *)
Theorem timeout_leaves_scratch_directory :
  let timed_out := generate_pdf timeout_env first_form empty_world in
  let completed := generate_pdf completed_env first_form empty_world in
  messageboxes (snd timed_out) = [showerror "Error" timeout_message] /\
  status_label (fst timed_out) = Some "PDF generation timed out" /\
  (exists temp_dir : gmap string string,
     temp_dirs (snd timed_out) = [temp_dir] /\
     is_Some (temp_dir !! "qsl_card.tex")) /\
  size <$> temp_dirs (snd timed_out) = [5] /\
  temp_dirs (snd completed) = [].
Proof.
  intros timed_out completed. subst timed_out completed.
  split; [vm_cast_no_check (eq_refl [showerror "Error" timeout_message])|].
  split; [vm_cast_no_check (eq_refl (Some "PDF generation timed out"))|].
  split.
  { destruct (timeout_keeps_scratch timeout_env first_form empty_world
                eq_refl eq_refl (or_introl eq_refl)) as (_ & _ & Hdir).
    exact Hdir. }
  split; [vm_cast_no_check (eq_refl [5])|].
  exact (completion_removes_scratch completed_env first_form empty_world
           _ _ eq_refl eq_refl).
Qed.

(** * Further properties *)

(** ** What is saved *)

Lemma NoDup_save_fields : NoDup save_fields.
Proof. apply (bool_decide_unpack _). vm_cast_no_check I. Qed.

Lemma NoDup_defaults_keys : NoDup defaults.*1.
Proof. apply (bool_decide_unpack _). vm_cast_no_check I. Qed.

Lemma dict_setitem_fresh (settings : list (string * string)) (k v : string) :
  k ∉ settings.*1 -> dict_setitem settings k v = (settings ++ [(k, v)])%list.
Proof.
  induction settings as [|[k' v'] rest IH]; intros Hfresh; [reflexivity|].
  cbn [fmap list_fmap fst] in Hfresh.
  apply not_elem_of_cons in Hfresh as [Hne Hrest].
  cbn [dict_setitem]. destruct (String.eqb_spec k' k) as [Heq|_]; [congruence|].
  cbn. now rewrite IH.
Qed.

Lemma omap_cons_eq {A B} (f : A -> option B) (x : A) (l : list A) :
  omap f (x :: l)
  = match f x with Some y => y :: omap f l | None => omap f l end.
Proof. reflexivity. Qed.

Lemma saved_item_Some (self : QSLCardGenerator) (name : string) (field : widget) :
  fields self !! name = Some field ->
  saved_item self name = Some (name, widget_get field).
Proof. intros H. unfold saved_item. now rewrite H. Qed.

Lemma saved_item_None (self : QSLCardGenerator) (name : string) :
  fields self !! name = None -> saved_item self name = None.
Proof. intros H. unfold saved_item. now rewrite H. Qed.

Lemma save_fold_omap (self : QSLCardGenerator) (names : list string)
    (settings : list (string * string)) :
  NoDup names ->
  (forall name, name ∈ names -> name ∉ settings.*1) ->
  foldl (save_step self) settings names
  = (settings ++ omap (saved_item self) names)%list.
Proof.
  revert settings. induction names as [|name names IH]; intros settings Hnd Hfresh.
  - cbn. now rewrite app_nil_r.
  - apply NoDup_cons in Hnd as [Hnotin Hnd]. cbn [foldl].
    rewrite omap_cons_eq. unfold save_step at 2.
    destruct (fields self !! name) as [field|] eqn:Hname.
    + rewrite (saved_item_Some _ _ _ Hname).
      rewrite dict_setitem_fresh by (apply Hfresh, elem_of_cons; now left).
      rewrite IH; [now rewrite <- app_assoc | assumption |].
      intros other Hother. rewrite fmap_app. cbn.
      intros [Hin|Hin]%elem_of_app.
      * apply (Hfresh other); [apply elem_of_cons; now right | assumption].
      * apply list_elem_of_singleton in Hin. congruence.
    + rewrite (saved_item_None _ _ Hname). apply IH; [assumption|].
      intros other Hother. apply Hfresh, elem_of_cons. now right.
Qed.

Lemma collect_settings_omap (self : QSLCardGenerator) :
  collect_settings self = omap (saved_item self) save_fields.
Proof.
  rewrite collect_settings_fold.
  rewrite save_fold_omap; [reflexivity | apply NoDup_save_fields |].
  intros name _. apply not_elem_of_nil.
Qed.

Lemma collect_settings_NoDup (self : QSLCardGenerator) :
  NoDup (collect_settings self).*1.
Proof.
  rewrite collect_settings_fold.
  apply (save_fold_keys self save_fields []). apply NoDup_nil_2.
Qed.

(** X1: the dictionary [save_settings] writes lists the allow-listed fields
    that the form has, and only those, in the order of the allow-list and
    each one once, each with the value its widget holds. *)
Theorem saved_settings_listing (self : QSLCardGenerator) (w : World) :
  settings_store (snd (save_settings None self w))
  = Some (JsonObject (omap (saved_item self) save_fields)) /\
  (omap (saved_item self) save_fields).*1
  = filter (fun name => is_Some (fields self !! name)) save_fields /\
  NoDup (omap (saved_item self) save_fields).*1.
Proof.
  split; [|split].
  - rewrite save_settings_store. now rewrite collect_settings_omap.
  - induction save_fields as [|name names IH]; [reflexivity|].
    rewrite omap_cons_eq.
    destruct (fields self !! name) as [field|] eqn:Hname.
    + rewrite (saved_item_Some _ _ _ Hname).
      rewrite filter_cons_True by (rewrite Hname; eauto).
      rewrite fmap_cons. cbn [fst]. f_equal. exact IH.
    + rewrite (saved_item_None _ _ Hname).
      rewrite filter_cons_False by (rewrite Hname; apply is_Some_None).
      exact IH.
  - rewrite <- collect_settings_omap. apply collect_settings_NoDup.
Qed.

(** ** What is loaded *)

Lemma dict_lookup_elem (k v : string) (settings : list (string * string)) :
  NoDup settings.*1 -> (k, v) ∈ settings -> dict_lookup k settings = Some v.
Proof.
  induction settings as [|[k' v'] rest IH]; intros Hnd Hin.
  - now apply not_elem_of_nil in Hin.
  - cbn [fmap list_fmap fst] in Hnd. apply NoDup_cons in Hnd as [Hnotin Hnd].
    cbn [dict_lookup]. apply elem_of_cons in Hin as [Heq|Hin].
    + injection Heq as -> ->. now rewrite decide_True.
    + assert (k ∈ rest.*1) as Hk.
      { apply list_elem_of_fmap. exists (k, v). split; [reflexivity | assumption]. }
      rewrite decide_False by (intros ->; contradiction).
      now apply IH.
Qed.

Lemma loaded_entry (value text : string) : loaded value (Entry text) = Entry value.
Proof. cbn. now rewrite append_nil_r. Qed.

Lemma loaded_widget_get (field : widget) : loaded (widget_get field) field = field.
Proof. destruct field as [text|v]; [apply loaded_entry | reflexivity]. Qed.

Lemma loaded_loaded (value : string) (field : widget) :
  loaded value (loaded value field) = loaded value field.
Proof. destruct field as [text|v]; [now rewrite !loaded_entry | reflexivity]. Qed.

(** X2: loading a settings file (its keys are distinct, as those of a
    parsed JSON object are): an entry named by a key holds the value of the
    key afterwards, in place of its old text; a string variable named by a
    key is set to the value; a widget no key names is left as it was; and a
    key that names no widget adds none. *)
Theorem load_settings_from_file (self : QSLCardGenerator) (w : World)
    (settings : list (string * string)) :
  settings_store w = Some (JsonObject settings) ->
  NoDup settings.*1 ->
  let fields' := fields (fst (load_settings self w)) in
  (forall name value text : string,
     (name, value) ∈ settings -> fields self !! name = Some (Entry text) ->
     fields' !! name = Some (Entry value)) /\
  (forall name value old : string,
     (name, value) ∈ settings -> fields self !! name = Some (StringVar old) ->
     fields' !! name = Some (StringVar value)) /\
  (forall name : string,
     name ∉ settings.*1 -> fields' !! name = fields self !! name) /\
  (forall name : string,
     fields self !! name = None -> fields' !! name = None).
Proof.
  intros Hstore Hnd fields'. subst fields'.
  rewrite (load_settings_fields _ _ _ Hstore).
  split; [|split; [|split]].
  - intros name value text Hin Hfield.
    rewrite (load_fold_lookup _ _ _ Hnd), (dict_lookup_elem _ _ _ Hnd Hin), Hfield.
    cbn [fmap option_fmap option_map]. now rewrite loaded_entry.
  - intros name value old Hin Hfield.
    now rewrite (load_fold_lookup _ _ _ Hnd), (dict_lookup_elem _ _ _ Hnd Hin), Hfield.
  - intros name Hnotin.
    now rewrite (load_fold_lookup _ _ _ Hnd), dict_lookup_None.
  - intros name Hfield. rewrite (load_fold_lookup _ _ _ Hnd), Hfield.
    destruct (dict_lookup name settings); reflexivity.
Qed.

(** X2 on the form of a first start and a hand-written file. *)
Lemma load_settings_from_file_witness :
  let w := write_settings [("callsign", "EA1ABC"); ("qsl_type", "swl"); ("rig", "x")]
             empty_world in
  let fields' := fields (fst (load_settings first_form w)) in
  fields' !! "callsign" = Some (Entry "EA1ABC") /\
  fields' !! "qsl_type" = Some (StringVar "swl") /\
  fields' !! "grid" = fields first_form !! "grid" /\
  fields' !! "rig" = None.
Proof.
  intros w fields'.
  assert (Hnd : NoDup [("callsign", "EA1ABC"); ("qsl_type", "swl"); ("rig", "x")].*1).
  { apply (bool_decide_unpack _). vm_compute. exact I. }
  destruct (load_settings_from_file first_form w _ eq_refl Hnd)
    as (Hentry & Hvar & Hother & Hnone).
  split; [|split; [|split]].
  - apply (Hentry "callsign" "EA1ABC" "EA7HQL").
    + apply (bool_decide_unpack _). vm_compute. exact I.
    + vm_compute. reflexivity.
  - apply (Hvar "qsl_type" "swl" "qso").
    + apply (bool_decide_unpack _). vm_compute. exact I.
    + vm_compute. reflexivity.
  - apply Hother. apply (bool_decide_unpack _). vm_compute. exact I.
  - apply Hnone. vm_compute. reflexivity.
Defined.

Lemma status_label_load_settings (self : QSLCardGenerator) (w : World)
    (settings : list (string * string)) :
  settings_store w = Some (JsonObject settings) ->
  status_label (fst (load_settings self w))
  = (fun _ => "Settings loaded from " +:+ settings_file) <$> status_label self.
Proof.
  intros Hstore. unfold load_settings. rewrite Hstore. cbn [fst].
  now rewrite status_label_update_status.
Qed.

(** X3: with a settings file in place, loading a second time changes
    nothing: the widgets and the status bar are as the first load left
    them. *)
Theorem load_settings_idempotent (self : QSLCardGenerator) (w : World)
    (settings : list (string * string)) :
  settings_store w = Some (JsonObject settings) ->
  NoDup settings.*1 ->
  let once := fst (load_settings self w) in
  let twice := fst (load_settings once (snd (load_settings self w))) in
  fields twice = fields once /\ status_label twice = status_label once.
Proof.
  intros Hstore Hnd once twice. subst once twice.
  assert (Hworld : snd (load_settings self w) = w).
  { unfold load_settings. now rewrite Hstore. }
  rewrite Hworld. split.
  - rewrite !(load_settings_fields _ _ _ Hstore).
    apply map_eq. intros name. rewrite !(load_fold_lookup _ _ _ Hnd).
    destruct (dict_lookup name settings) as [v|]; [|reflexivity].
    destruct (fields self !! name) as [field|]; [|reflexivity].
    cbn. now rewrite loaded_loaded.
  - rewrite !(status_label_load_settings _ _ _ Hstore).
    destruct (status_label self); reflexivity.
Qed.

(** X3 on the form of a first start and a hand-written file. *)
Lemma load_settings_idempotent_witness :
  let w := write_settings [("callsign", "EA1ABC"); ("power", "100")] empty_world in
  let once := fst (load_settings first_form w) in
  let twice := fst (load_settings once (snd (load_settings first_form w))) in
  fields twice = fields once /\ status_label twice = status_label once.
Proof.
  intros w.
  apply (load_settings_idempotent first_form w
           [("callsign", "EA1ABC"); ("power", "100")] eq_refl).
  apply (bool_decide_unpack _). vm_compute. exact I.
Defined.

(** What a field is after the settings of [source] went through the file
    into [target]. *)
Lemma round_trip_lookup (source target : QSLCardGenerator) (w : World)
    (name : string) :
  fields (fst (load_settings target (snd (save_settings None source w)))) !! name
  = match (if decide (name ∈ save_fields)
           then widget_get <$> fields source !! name else None) with
    | Some v => loaded v <$> fields target !! name
    | None => fields target !! name
    end.
Proof.
  rewrite (load_settings_fields _ _ _ (save_settings_store source w)).
  rewrite (load_fold_lookup _ _ _ (collect_settings_NoDup source)).
  rewrite collect_settings_fold, save_fold_lookup.
  destruct (decide (name ∈ save_fields));
    [destruct (widget_get <$> fields source !! name)|]; reflexivity.
Qed.

(** X4: saving the defaults of a form and loading them back into the same
    form leaves every widget of the form exactly as it was. *)
Theorem save_then_load_same_form (self : QSLCardGenerator) (w : World) :
  fields (fst (load_settings self (snd (save_settings None self w))))
  = fields self.
Proof.
  apply map_eq. intros name. rewrite round_trip_lookup.
  destruct (decide (name ∈ save_fields)); [|reflexivity].
  destruct (fields self !! name) as [field|]; [|reflexivity].
  cbn. now rewrite loaded_widget_get.
Qed.

Lemma omap_pointwise {A B} (f g : A -> option B) (l : list A) :
  (forall x, x ∈ l -> f x = g x) -> omap f l = omap g l.
Proof.
  induction l as [|x l IH]; intros Hfg; [reflexivity|].
  rewrite !omap_cons_eq, (Hfg x) by (apply elem_of_cons; now left).
  rewrite IH; [reflexivity|].
  intros y Hy. apply Hfg, elem_of_cons. now right.
Qed.

(** X5: when the settings saved from one form have been loaded into a
    form that has the same allow-listed fields, saving that form writes the
    same dictionary again. *)
Theorem save_load_save_stable (source target : QSLCardGenerator) (w : World) :
  (forall name : string,
     name ∈ save_fields ->
     (is_Some (fields source !! name) <-> is_Some (fields target !! name))) ->
  let target' := fst (load_settings target (snd (save_settings None source w))) in
  collect_settings target' = collect_settings source.
Proof.
  intros Hsame target'. subst target'.
  rewrite !collect_settings_omap. apply omap_pointwise.
  intros name Hin. unfold saved_item.
  rewrite round_trip_lookup, decide_True by assumption.
  destruct (Hsame name Hin) as [Hst Hts].
  destruct (fields source !! name) as [field|] eqn:Hsource.
  - destruct (Hst (mk_is_Some _ _ eq_refl)) as [field' Htarget].
    rewrite Htarget. cbn. now rewrite widget_get_loaded.
  - cbn. destruct (fields target !! name) as [field'|] eqn:Htarget; [|reflexivity].
    destruct (Hts (mk_is_Some _ _ eq_refl)) as [x Hx]. discriminate.
Qed.

(** X5 from the edited form into a fresh one. *)
Lemma save_load_save_stable_witness :
  collect_settings
    (fst (load_settings new_form (snd (save_settings None edited_form empty_world))))
  = collect_settings edited_form.
Proof.
  apply (save_load_save_stable edited_form new_form empty_world).
  intros name Hin.
  assert (Hall : Forall (fun name => is_Some (fields edited_form !! name)
                                     /\ is_Some (fields new_form !! name))
                   save_fields).
  { repeat constructor; vm_compute; eexists; reflexivity. }
  rewrite Forall_forall in Hall. destruct (Hall name Hin) as [H1 H2].
  split; intros _; assumption.
Defined.

(** ** Invariants of loading *)

Lemma load_item_kind (fields : gmap string widget) (item : string * string)
    (name : string) :
  is_stringvar <$> load_item fields item !! name = is_stringvar <$> fields !! name.
Proof.
  destruct item as [k v]. unfold load_item.
  destruct (fields !! k) as [[text|old]|] eqn:Hk; [| |reflexivity];
    (rewrite lookup_insert; destruct (decide (k = name)) as [<-|]; [|reflexivity]);
    now rewrite Hk.
Qed.

Lemma insert_default_kind (fields : gmap string widget) (item : string * string)
    (name : string) :
  is_stringvar <$> insert_default fields item !! name = is_stringvar <$> fields !! name.
Proof.
  destruct item as [k v]. unfold insert_default.
  destruct (fields !! k) as [[text|old]|] eqn:Hk; [|reflexivity|reflexivity].
  rewrite lookup_insert. destruct (decide (k = name)) as [<-|]; [|reflexivity].
  now rewrite Hk.
Qed.

Lemma foldl_kind (step : gmap string widget -> string * string -> gmap string widget)
    (items : list (string * string)) (fields : gmap string widget) (name : string) :
  (forall fs item, is_stringvar <$> step fs item !! name = is_stringvar <$> fs !! name) ->
  is_stringvar <$> foldl step fields items !! name = is_stringvar <$> fields !! name.
Proof.
  intros Hstep. revert fields.
  induction items as [|item items IH]; intros fields; [reflexivity|].
  cbn [foldl]. now rewrite IH, Hstep.
Qed.

Lemma fields_update_status (message : string) (self : QSLCardGenerator) :
  fields (update_status message self) = fields self.
Proof. unfold update_status. destruct (status_label self); reflexivity. Qed.

(** X6: whatever the settings file is (absent, readable with any keys and
    values, or unreadable), [load_settings] neither adds nor removes a
    widget, and never turns an entry into a string variable or the other
    way round. *)
Theorem load_settings_keeps_widgets (self : QSLCardGenerator) (w : World)
    (name : string) :
  is_stringvar <$> fields (fst (load_settings self w)) !! name
  = is_stringvar <$> fields self !! name.
Proof.
  unfold load_settings.
  destruct (settings_store w) as [[settings|e]|]; cbn [fst].
  - rewrite fields_update_status. cbn [fields set_fields].
    apply foldl_kind. intros fs item. apply load_item_kind.
  - now rewrite fields_update_status.
  - rewrite fields_update_status. cbn [fields set_fields].
    apply foldl_kind. intros fs item. apply insert_default_kind.
Qed.

(** ** Loading without a settings file *)

Lemma insert_default_fold_lookup (items : list (string * string))
    (fields : gmap string widget) (k : string) :
  NoDup items.*1 ->
  foldl insert_default fields items !! k
  = match dict_lookup k items with
    | Some v => entry_insert0 v <$> fields !! k
    | None => fields !! k
    end.
Proof.
  revert fields. induction items as [|[k' v] rest IH]; intros fields Hnd.
  - reflexivity.
  - cbn [fmap list_fmap fst] in Hnd. apply NoDup_cons in Hnd as [Hnotin Hnd].
    cbn [foldl]. rewrite (IH _ Hnd). cbn [dict_lookup].
    assert (Hitem : forall j, insert_default fields (k', v) !! j
              = if decide (k' = j) then entry_insert0 v <$> fields !! j
                else fields !! j).
    { intros j. unfold insert_default.
      destruct (fields !! k') as [[text|value]|] eqn:Hk'.
      - rewrite lookup_insert. destruct (decide (k' = j)) as [<-|]; [|reflexivity].
        now rewrite Hk'.
      - destruct (decide (k' = j)) as [<-|]; [|reflexivity]. now rewrite Hk'.
      - destruct (decide (k' = j)) as [<-|]; [|reflexivity]. now rewrite Hk'. }
    rewrite Hitem. destruct (decide (k' = k)) as [->|Hne].
    + now rewrite dict_lookup_None.
    + reflexivity.
Qed.

(** X7: loading when there is no settings file, on any form: an entry
    named in the built-in defaults gets its default put in front of the
    text it already holds (the text is not cleared first), a string
    variable is not touched, and neither is a field the defaults do not
    name. *)
Theorem load_without_file_prepends (self : QSLCardGenerator) (w : World) :
  settings_store w = None ->
  let fields' := fields (fst (load_settings self w)) in
  (forall name value text : string,
     (name, value) ∈ defaults -> fields self !! name = Some (Entry text) ->
     fields' !! name = Some (Entry (value +:+ text))) /\
  (forall name value : string,
     fields self !! name = Some (StringVar value) ->
     fields' !! name = Some (StringVar value)) /\
  (forall name : string,
     name ∉ defaults.*1 -> fields' !! name = fields self !! name).
Proof.
  intros Hstore fields'. subst fields'.
  rewrite (first_load_fields _ _ Hstore). cbn [fst].
  rewrite fields_update_status. cbn [fields set_fields].
  split; [|split].
  - intros name value text Hin Hfield.
    rewrite (insert_default_fold_lookup _ _ _ NoDup_defaults_keys).
    now rewrite (dict_lookup_elem _ _ _ NoDup_defaults_keys Hin), Hfield.
  - intros name value Hfield.
    rewrite (insert_default_fold_lookup _ _ _ NoDup_defaults_keys), Hfield.
    destruct (dict_lookup name defaults); reflexivity.
  - intros name Hnotin. now apply insert_default_other.
Qed.

(** X7 on the form of a first start, loaded once more without a file. *)
Lemma load_without_file_prepends_witness :
  let fields' := fields (fst (load_settings first_form empty_world)) in
  fields' !! "grid" = Some (Entry "IM76SPIM76SP") /\
  fields' !! "qth_type" = Some (StringVar "home") /\
  fields' !! "date" = Some (Entry "").
Proof.
  intros fields'.
  destruct (load_without_file_prepends first_form empty_world eq_refl)
    as (Hentry & Hvar & Hother).
  split; [|split].
  - apply (Hentry "grid" "IM76SP" "IM76SP").
    + apply (bool_decide_unpack _). vm_compute. exact I.
    + vm_compute. reflexivity.
  - apply (Hvar "qth_type" "home"). vm_compute. reflexivity.
  - subst fields'. rewrite (Hother "date").
    + vm_compute. reflexivity.
    + apply (bool_decide_unpack _). vm_compute. exact I.
Defined.

(** ** The tables of field names *)

(** X8: the tables of field names agree. The built-in defaults name the
    entries of the station tab, in the same order; the allow-list of
    [save_settings] is a rearrangement of the same names; no contact field
    is among them; and the form has a widget for exactly the fields of the
    built-in record of the command-line mode. *)
Theorem field_tables_agree :
  defaults.*1 = station_entries /\
  save_fields ≡ₚ station_entries /\
  (forall name : string, name ∈ contact_fields -> name ∉ save_fields) /\
  dom (fields new_form) = dom init_cli_defaults /\
  dom (fields new_form)
  = list_to_set (station_entries ++ contact_fields
                 ++ ["qth_type"; "qsl_type"; "qsl_request"])%list.
Proof.
  split; [reflexivity|].
  split; [apply (bool_decide_unpack _); vm_cast_no_check I|].
  split.
  { assert (H : Forall (fun name => name ∉ save_fields) contact_fields).
    { apply (bool_decide_unpack _). vm_cast_no_check I. }
    intros name Hin. rewrite Forall_forall in H. now apply H. }
  split; apply (bool_decide_unpack _); vm_cast_no_check I.
Qed.

(** X8 on the date of the contact, which is not saved. *)
Lemma field_tables_agree_witness :
  ("date" ∉ save_fields) /\ length save_fields = length defaults.
Proof.
  destruct field_tables_agree as (Hkeys & Hperm & Hcontact & _).
  split.
  - apply Hcontact. apply (bool_decide_unpack _). vm_compute. exact I.
  - rewrite Hperm, <- Hkeys. apply length_fmap.
Defined.

(** ** Clearing the contact fields *)

Lemma entry_delete_all_twice (field : widget) :
  entry_delete_all (entry_delete_all field) = entry_delete_all field.
Proof. destruct field; reflexivity. Qed.

Lemma clear_field_lookup (fields : gmap string widget) (name k : string) :
  clear_field fields name !! k
  = if decide (name = k) then entry_delete_all <$> fields !! k else fields !! k.
Proof.
  unfold clear_field.
  destruct (fields !! name) as [[text|value]|] eqn:Hname.
  - rewrite lookup_insert. destruct (decide (name = k)) as [<-|]; [|reflexivity].
    now rewrite Hname.
  - destruct (decide (name = k)) as [<-|]; [|reflexivity]. now rewrite Hname.
  - destruct (decide (name = k)) as [<-|]; [|reflexivity]. now rewrite Hname.
Qed.

Lemma clear_fold_lookup (names : list string) (fields : gmap string widget)
    (k : string) :
  foldl clear_field fields names !! k
  = if decide (k ∈ names) then entry_delete_all <$> fields !! k else fields !! k.
Proof.
  revert fields. induction names as [|name names IH]; intros fields.
  - cbn. rewrite decide_False; [reflexivity | apply not_elem_of_nil].
  - cbn [foldl]. rewrite IH, clear_field_lookup.
    destruct (decide (name = k)) as [->|Hne].
    + rewrite (decide_True (P := k ∈ k :: names)) by (apply elem_of_cons; now left).
      destruct (decide (k ∈ names)); [|reflexivity].
      destruct (fields !! k) as [field|]; [|reflexivity].
      cbn. now rewrite entry_delete_all_twice.
    + destruct (decide (k ∈ names)) as [Hin|Hnotin].
      * now rewrite decide_True by (apply elem_of_cons; now right).
      * rewrite decide_False; [reflexivity|].
        intros [Heq|Hin]%elem_of_cons; [congruence | contradiction].
Qed.

Lemma set_choice_stringvar (name value old : string) (fields : gmap string widget) :
  fields !! name = Some (StringVar old) ->
  set_choice name value fields = Ok (<[name := StringVar value]> fields).
Proof. intros H. unfold set_choice, dict_getitem. now rewrite H. Qed.

Lemma set_choice_other (name value : string) (fields fields' : gmap string widget)
    (k : string) :
  set_choice name value fields = Ok fields' -> k <> name ->
  fields' !! k = fields !! k.
Proof.
  unfold set_choice, dict_getitem.
  destruct (fields !! name) as [[text|old]|]; try discriminate.
  intros [= <-] Hne. now rewrite lookup_insert_ne by congruence.
Qed.

(** The fields of the form after the operator has confirmed, when the
    three choice fields are string variables. *)
Lemma clear_confirmed_run (self : QSLCardGenerator) (w : World)
    (qth qsl request : string) :
  fields self !! "qth_type" = Some (StringVar qth) ->
  fields self !! "qsl_type" = Some (StringVar qsl) ->
  fields self !! "qsl_request" = Some (StringVar request) ->
  clear_contact_fields true self w
  = (Ok tt,
     update_status "Contact fields cleared (equipment preserved)"
       (set_fields
          (<["qsl_request" := StringVar "tnx"]>
             (<["qsl_type" := StringVar "qso"]>
                (<["qth_type" := StringVar "home"]>
                   (foldl clear_field (fields self) contact_fields))))
          self),
     show (askyesno "Clear Fields" "Clear all contact details fields?" true) w).
Proof.
  intros Hqth Hqsl Hrequest. unfold clear_contact_fields.
  rewrite (set_choice_stringvar "qth_type" "home" qth).
  2:{ rewrite clear_fold_lookup, Hqth.
      destruct (decide ("qth_type" ∈ contact_fields)); reflexivity. }
  rewrite (set_choice_stringvar "qsl_type" "qso" qsl).
  2:{ rewrite lookup_insert_ne by discriminate.
      rewrite clear_fold_lookup, Hqsl.
      destruct (decide ("qsl_type" ∈ contact_fields)); reflexivity. }
  rewrite (set_choice_stringvar "qsl_request" "tnx" request).
  2:{ rewrite !lookup_insert_ne by discriminate.
      rewrite clear_fold_lookup, Hrequest.
      destruct (decide ("qsl_request" ∈ contact_fields)); reflexivity. }
  reflexivity.
Qed.

Lemma choice_not_contact :
  Forall (fun name => name ∉ contact_fields) choice_fields.
Proof. apply (bool_decide_unpack _). vm_cast_no_check I. Qed.

(** X9: when the operator confirms, on a form whose three choice fields
    are string variables, [clear_contact_fields] raises nothing; afterwards
    every contact entry is empty, the choice fields are back at home, qso
    and tnx, and every other field of the form is as it was. *)
Theorem clear_contact_fields_confirmed (self : QSLCardGenerator) (w : World)
    (qth qsl request : string) :
  fields self !! "qth_type" = Some (StringVar qth) ->
  fields self !! "qsl_type" = Some (StringVar qsl) ->
  fields self !! "qsl_request" = Some (StringVar request) ->
  let outcome := clear_contact_fields true self w in
  let fields' := fields (snd (fst outcome)) in
  fst (fst outcome) = Ok tt /\
  (forall name text : string,
     name ∈ contact_fields -> fields self !! name = Some (Entry text) ->
     fields' !! name = Some (Entry "")) /\
  fields' !! "qth_type" = Some (StringVar "home") /\
  fields' !! "qsl_type" = Some (StringVar "qso") /\
  fields' !! "qsl_request" = Some (StringVar "tnx") /\
  (forall name : string,
     name ∉ contact_fields -> name ∉ choice_fields ->
     fields' !! name = fields self !! name).
Proof.
  intros Hqth Hqsl Hrequest outcome fields'. subst fields' outcome.
  rewrite (clear_confirmed_run self w qth qsl request Hqth Hqsl Hrequest).
  cbn [fst snd]. rewrite fields_update_status. cbn [fields set_fields].
  split; [reflexivity|]. split; [|split; [|split; [|split]]].
  - intros name text Hin Hfield.
    assert (Hne : forall choice, choice ∈ choice_fields -> choice <> name).
    { intros choice Hchoice ->.
      pose proof choice_not_contact as H. rewrite Forall_forall in H.
      now apply (H name). }
    rewrite !lookup_insert_ne
      by (apply Hne; unfold choice_fields; repeat constructor).
    now rewrite clear_fold_lookup, decide_True, Hfield by assumption.
  - rewrite !lookup_insert_ne by discriminate. apply lookup_insert_eq.
  - rewrite lookup_insert_ne by discriminate. apply lookup_insert_eq.
  - apply lookup_insert_eq.
  - intros name Hcontact Hchoice.
    rewrite !lookup_insert_ne
      by (intros <-; apply Hchoice; unfold choice_fields; repeat constructor).
    now rewrite clear_fold_lookup, decide_False by assumption.
Qed.

(** X9 on the form with a contact typed in. *)
Lemma clear_contact_fields_confirmed_witness :
  let outcome := clear_contact_fields true contact_form empty_world in
  let fields' := fields (snd (fst outcome)) in
  fst (fst outcome) = Ok tt /\
  fields' !! "their_call" = Some (Entry "") /\
  fields' !! "qth_type" = Some (StringVar "home") /\
  fields' !! "callsign" = fields contact_form !! "callsign".
Proof.
  intros outcome fields'.
  destruct (clear_contact_fields_confirmed contact_form empty_world
              "portable" "swl" "pse")
    as (Hok & Hcontact & Hqth & _ & _ & Hother);
    [vm_compute; reflexivity ..|].
  split; [exact Hok|]. split; [|split; [exact Hqth|]].
  - apply (Hcontact "their_call" "DL1XYZ").
    + apply (bool_decide_unpack _). vm_compute. exact I.
    + vm_compute. reflexivity.
  - apply Hother; apply (bool_decide_unpack _); vm_compute; exact I.
Defined.

Lemma clear_outcome_fields (answer : bool) (self : QSLCardGenerator) (w : World)
    (name : string) :
  name ∉ contact_fields -> name ∉ choice_fields ->
  fields (snd (fst (clear_contact_fields answer self w))) !! name
  = fields self !! name.
Proof.
  intros Hcontact Hchoice.
  assert (Hne : forall choice, choice ∈ choice_fields -> name <> choice).
  { intros choice Hin ->. contradiction. }
  assert (Hne1 : name <> "qth_type")
    by (apply Hne; unfold choice_fields; repeat constructor).
  assert (Hne2 : name <> "qsl_type")
    by (apply Hne; unfold choice_fields; repeat constructor).
  assert (Hne3 : name <> "qsl_request")
    by (apply Hne; unfold choice_fields; repeat constructor).
  assert (H1 : foldl clear_field (fields self) contact_fields !! name
               = fields self !! name).
  { now rewrite clear_fold_lookup, decide_False by assumption. }
  unfold clear_contact_fields. destruct answer; [|reflexivity].
  destruct (set_choice "qth_type" "home" _) as [fields2|e] eqn:E2;
    [|cbn [fst snd fields set_fields]; exact H1].
  pose proof (set_choice_other _ _ _ _ name E2 Hne1) as H2.
  destruct (set_choice "qsl_type" "qso" _) as [fields3|e] eqn:E3;
    [|cbn [fst snd fields set_fields]; now rewrite H2].
  pose proof (set_choice_other _ _ _ _ name E3 Hne2) as H3.
  destruct (set_choice "qsl_request" "tnx" _) as [fields4|e] eqn:E4;
    [|cbn [fst snd fields set_fields]; now rewrite H3, H2].
  pose proof (set_choice_other _ _ _ _ name E4 Hne3) as H4.
  cbn [fst snd]. rewrite fields_update_status. cbn [fields set_fields].
  now rewrite H4, H3, H2.
Qed.

Lemma collect_settings_ext (a b : QSLCardGenerator) :
  (forall name, name ∈ save_fields -> fields a !! name = fields b !! name) ->
  collect_settings a = collect_settings b.
Proof.
  intros Hsame. rewrite !collect_settings_omap. apply omap_pointwise.
  intros name Hin. unfold saved_item. now rewrite Hsame.
Qed.

Lemma saved_not_cleared :
  Forall (fun name => (name ∉ contact_fields) /\ (name ∉ choice_fields)) save_fields.
Proof. apply (bool_decide_unpack _). vm_cast_no_check I. Qed.

(** X10: whatever the operator answers, and whether or not setting the
    choice fields raises, [clear_contact_fields] touches no field outside
    the contact fields and the three choice fields; so what
    [save_settings] would write is the same before and after, and the
    settings file itself is not touched. When the operator declines, the
    form is left as it is. *)
Theorem clear_contact_fields_keeps_station (answer : bool)
    (self : QSLCardGenerator) (w : World) :
  let outcome := clear_contact_fields answer self w in
  let self' := snd (fst outcome) in
  (forall name : string,
     name ∉ contact_fields -> name ∉ choice_fields ->
     fields self' !! name = fields self !! name) /\
  collect_settings self' = collect_settings self /\
  settings_store (snd outcome) = settings_store w /\
  (answer = false -> fst (fst outcome) = Ok tt /\ self' = self).
Proof.
  intros outcome self'. subst self' outcome.
  split; [|split; [|split]].
  - intros name. apply clear_outcome_fields.
  - apply collect_settings_ext. intros name Hin.
    pose proof saved_not_cleared as H. rewrite Forall_forall in H.
    destruct (H name Hin). now apply clear_outcome_fields.
  - unfold clear_contact_fields. destruct answer; [|reflexivity].
    destruct (set_choice "qth_type" "home" _); [|reflexivity].
    destruct (set_choice "qsl_type" "qso" _); [|reflexivity].
    destruct (set_choice "qsl_request" "tnx" _); reflexivity.
  - intros ->. split; reflexivity.
Qed.

(** X10 on the form with a contact typed in. *)
Lemma clear_contact_fields_keeps_station_witness :
  collect_settings (snd (fst (clear_contact_fields true contact_form empty_world)))
  = collect_settings contact_form /\
  snd (fst (clear_contact_fields false contact_form empty_world)) = contact_form.
Proof.
  split.
  - apply (clear_contact_fields_keeps_station true contact_form empty_world).
  - apply (clear_contact_fields_keeps_station false contact_form empty_world).
    reflexivity.
Defined.

(** X11: on a form that lacks the field [qth_type], confirming raises
    [KeyError] for that field, and by then the contact entries have already
    been emptied; the other two choice fields and the status bar are not
    reached. *)
Theorem clear_contact_fields_missing_choice (self : QSLCardGenerator) (w : World) :
  fields self !! "qth_type" = None ->
  let outcome := clear_contact_fields true self w in
  let self' := snd (fst outcome) in
  fst (fst outcome) = Raise (KeyError "qth_type") /\
  (forall name text : string,
     name ∈ contact_fields -> fields self !! name = Some (Entry text) ->
     fields self' !! name = Some (Entry "")) /\
  fields self' !! "qsl_type" = fields self !! "qsl_type" /\
  fields self' !! "qsl_request" = fields self !! "qsl_request" /\
  status_label self' = status_label self.
Proof.
  intros Hnone outcome self'. subst self' outcome.
  unfold clear_contact_fields.
  assert (Hraise : set_choice "qth_type" "home"
                     (foldl clear_field (fields self) contact_fields)
                   = Raise (KeyError "qth_type")).
  { unfold set_choice, dict_getitem. rewrite clear_fold_lookup, Hnone.
    destruct (decide ("qth_type" ∈ contact_fields)); reflexivity. }
  rewrite Hraise. cbn [fst snd fields set_fields status_label].
  split; [reflexivity|]. split; [|split; [|split; [|reflexivity]]].
  - intros name text Hin Hfield.
    now rewrite clear_fold_lookup, decide_True, Hfield by assumption.
  - rewrite clear_fold_lookup, decide_False; [reflexivity|].
    apply (bool_decide_unpack _). vm_cast_no_check I.
  - rewrite clear_fold_lookup, decide_False; [reflexivity|].
    apply (bool_decide_unpack _). vm_cast_no_check I.
Qed.

(** X11 on the form that has entries only. *)
Lemma clear_contact_fields_missing_choice_witness :
  let outcome := clear_contact_fields true entries_only_form empty_world in
  fst (fst outcome) = Raise (KeyError "qth_type") /\
  fields (snd (fst outcome)) !! "via" = Some (Entry "").
Proof.
  intros outcome.
  destruct (clear_contact_fields_missing_choice entries_only_form empty_world)
    as (Hraise & Hcleared & _); [vm_compute; reflexivity|].
  split; [exact Hraise|].
  apply (Hcleared "via" "bureau").
  - apply (bool_decide_unpack _). vm_compute. exact I.
  - vm_compute. reflexivity.
Defined.

Lemma root_update_status (message : string) (self : QSLCardGenerator) :
  root (update_status message self) = root self.
Proof. unfold update_status. destruct (status_label self); reflexivity. Qed.

(** X12: after the operator has confirmed the clearing of a form in GUI
    mode, whatever was chosen before, the rendered document has the home,
    QSO and TNX boxes checked and the portable, SWL and PSE boxes
    unchecked. *)
Theorem render_after_clear (self : QSLCardGenerator) (w : World)
    (qth qsl request : string) :
  root self = true ->
  fields self !! "qth_type" = Some (StringVar qth) ->
  fields self !! "qsl_type" = Some (StringVar qsl) ->
  fields self !! "qsl_request" = Some (StringVar request) ->
  let self' := snd (fst (clear_contact_fields true self w)) in
  exists doc : string,
    generate_latex_code self' = (Ok doc, self') /\
    occurs_in
      (qth_row checked unchecked (field_value self' "portable_location")) doc /\
    occurs_in (thanks_row checked unchecked) doc /\
    occurs_in (qsl_row unchecked checked) doc.
Proof.
  intros Hroot Hqth Hqsl Hrequest self'.
  destruct (checkbox_rows self') as (doc & Hdoc & Hrow1 & Hrow2 & Hrow3).
  assert (Hvalue : forall name value,
            fields self' !! name = Some (StringVar value) ->
            field_value self' name = value).
  { intros name value Hfield. unfold field_value.
    assert (root self' = true) as ->.
    { subst self'.
      rewrite (clear_confirmed_run self w qth qsl request Hqth Hqsl Hrequest).
      cbn [fst snd]. now rewrite root_update_status. }
    now rewrite Hfield. }
  assert (Hfields : fields self' !! "qth_type" = Some (StringVar "home") /\
                    fields self' !! "qsl_type" = Some (StringVar "qso") /\
                    fields self' !! "qsl_request" = Some (StringVar "tnx")).
  { subst self'.
    rewrite (clear_confirmed_run self w qth qsl request Hqth Hqsl Hrequest).
    cbn [fst snd]. rewrite fields_update_status. cbn [fields set_fields].
    split; [|split].
    - rewrite !lookup_insert_ne by discriminate. apply lookup_insert_eq.
    - rewrite lookup_insert_ne by discriminate. apply lookup_insert_eq.
    - apply lookup_insert_eq. }
  destruct Hfields as (H1 & H2 & H3).
  rewrite (Hvalue _ _ H1) in Hrow1. rewrite (Hvalue _ _ H2) in Hrow2.
  rewrite (Hvalue _ _ H3) in Hrow3.
  exists doc. repeat split; assumption.
Qed.

(** X12 on the form with portable, SWL and PSE chosen. *)
Lemma render_after_clear_witness :
  let self' := snd (fst (clear_contact_fields true contact_form empty_world)) in
  exists doc : string,
    generate_latex_code self' = (Ok doc, self') /\
    occurs_in (thanks_row checked unchecked) doc /\
    occurs_in (qsl_row unchecked checked) doc.
Proof.
  intros self'.
  destruct (render_after_clear contact_form empty_world "portable" "swl" "pse")
    as (doc & Hdoc & _ & Hrow2 & Hrow3); [vm_compute; reflexivity ..|].
  exists doc. repeat split; assumption.
Defined.

(** ** The PDF wrapper: staging, cleaning up, handing out *)

Lemma missing_among_cons (env : pdf_env) (img : string) (imgs : list string) :
  missing_among env (img :: imgs)
  = if path_exists env img then missing_among env imgs
    else img :: missing_among env imgs.
Proof.
  unfold missing_among. destruct (path_exists env img) eqn:Hexists.
  - rewrite filter_cons_False; [reflexivity | congruence].
  - now rewrite filter_cons_True.
Qed.

(** The loop that stages the images, run from any world with a scratch
    directory: the images noted as missing are the ones that do not exist,
    in the order of the list; the scratch directory keeps its files and
    gains nothing under a name that is no base name of a listed image; and
    nothing else in the world changes. *)
Lemma stage_images_run (env : pdf_env) (imgs : list string) (w : World)
    (missing : list string) (temp_dir : gmap string string)
    (others : list (gmap string string)) :
  temp_dirs w = temp_dir :: others ->
  exists (w' : World) (temp_dir' : gmap string string),
    foldl (stage_image env) (w, missing) imgs
    = (w', (missing ++ missing_among env imgs)%list) /\
    temp_dirs w' = temp_dir' :: others /\
    settings_store w' = settings_store w /\
    messageboxes w' = messageboxes w /\
    saved_pdfs w' = saved_pdfs w /\
    (forall name, is_Some (temp_dir !! name) -> is_Some (temp_dir' !! name)) /\
    (forall name, (forall img, img ∈ imgs -> basename img <> name) ->
                  temp_dir' !! name = temp_dir !! name).
Proof.
  revert w missing temp_dir.
  induction imgs as [|img imgs IH]; intros w missing temp_dir Hdirs.
  - exists w, temp_dir. cbn. rewrite app_nil_r. repeat split; auto.
  - cbn [foldl]. unfold stage_image at 2. rewrite missing_among_cons.
    destruct (path_exists env img) eqn:Hexists.
    + destruct (IH (write_temp (basename img) (file_content env img) w) missing
                  (<[basename img := file_content env img]> temp_dir))
        as (w' & temp_dir' & Hfold & Hdirs' & Hstore & Hboxes & Hsaved & Hkeep & Hnew).
      { unfold write_temp. cbn [temp_dirs]. now rewrite Hdirs. }
      exists w', temp_dir'. repeat split; try assumption.
      * intros name Hname. apply Hkeep. rewrite lookup_insert.
        destruct (decide (basename img = name)); [eauto | assumption].
      * intros name Hfresh. rewrite Hnew.
        -- apply lookup_insert_ne, Hfresh, elem_of_cons. now left.
        -- intros other Hother. apply Hfresh, elem_of_cons. now right.
    + destruct (IH w (missing ++ [img])%list temp_dir Hdirs)
        as (w' & temp_dir' & Hfold & Hdirs' & Hstore & Hboxes & Hsaved & Hkeep & Hnew).
      exists w', temp_dir'. rewrite <- app_assoc in Hfold.
      repeat split; try assumption.
      intros name Hfresh. apply Hnew.
      intros other Hother. apply Hfresh, elem_of_cons. now right.
Qed.

Lemma field_value_update_status (message : string) (self : QSLCardGenerator)
    (name : string) :
  field_value (update_status message self) name = field_value self name.
Proof. unfold update_status. destruct (status_label self); reflexivity. Qed.

Lemma data_update_status (message : string) (self : QSLCardGenerator) :
  data (update_status message self) = data self.
Proof. unfold update_status. destruct (status_label self); reflexivity. Qed.

(** Writing the outputs of the run into the newest scratch directory. *)
Lemma write_outputs_run (outputs : list (string * string)) (w : World)
    (temp_dir : gmap string string) (others : list (gmap string string)) :
  temp_dirs w = temp_dir :: others ->
  exists temp_dir' : gmap string string,
    temp_dirs (foldl (fun w0 '(name, content) => write_temp name content w0)
                 w outputs) = temp_dir' :: others /\
    settings_store (foldl (fun w0 '(name, content) => write_temp name content w0)
                      w outputs) = settings_store w /\
    messageboxes (foldl (fun w0 '(name, content) => write_temp name content w0)
                    w outputs) = messageboxes w /\
    saved_pdfs (foldl (fun w0 '(name, content) => write_temp name content w0)
                  w outputs) = saved_pdfs w /\
    (forall name, name ∉ outputs.*1 -> temp_dir' !! name = temp_dir !! name) /\
    (forall name content, NoDup outputs.*1 -> (name, content) ∈ outputs ->
                          temp_dir' !! name = Some content).
Proof.
  revert w temp_dir. induction outputs as [|[n c] outputs IH]; intros w temp_dir Hdirs.
  - exists temp_dir. cbn. repeat split; auto.
    intros name content _ Hin. now apply not_elem_of_nil in Hin.
  - cbn [foldl].
    destruct (IH (write_temp n c w) (<[n := c]> temp_dir))
      as (temp_dir' & Hdirs' & Hstore & Hboxes & Hsaved & Hother & Hin).
    { unfold write_temp. cbn [temp_dirs]. now rewrite Hdirs. }
    exists temp_dir'. repeat split; try assumption.
    + intros name Hname. cbn [fmap list_fmap fst] in Hname.
      apply not_elem_of_cons in Hname as [Hne Hname].
      rewrite (Hother name Hname). now apply lookup_insert_ne.
    + intros name content Hnd Hmem. cbn [fmap list_fmap fst] in Hnd.
      apply NoDup_cons in Hnd as [Hfresh Hnd].
      apply elem_of_cons in Hmem as [Heq|Hmem].
      * injection Heq as -> ->. rewrite (Hother n Hfresh). apply lookup_insert_eq.
      * now apply Hin.
Qed.

(** The ways [generate_pdf] can go once [pdflatex] is found: the document
    and the images are staged into a new scratch directory; then either
    the operator declines to go on without the missing images, or the run
    times out, or it ends and [after_run] takes over. *)
Lemma generate_pdf_cases (env : pdf_env) (self : QSLCardGenerator) (w : World) :
  which_pdflatex env = true ->
  let self1 := update_status "Generating PDF..." self in
  let running := update_status "Running pdflatex (this may take a moment)..." self1 in
  let imgs := [ py_or (field_value self "background_image") "foto_antenas.jpg";
                py_or (field_value self "logo1") "logo_ure_negro.png";
                py_or (field_value self "logo2") "qrz_com.png";
                py_or (field_value self "logo3") "lotw.png" ] in
  let missing := missing_among env imgs in
  exists (staged : World) (temp_dir : gmap string string),
    temp_dirs staged = temp_dir :: temp_dirs w /\
    settings_store staged = settings_store w /\
    messageboxes staged = messageboxes w /\
    saved_pdfs staged = saved_pdfs w /\
    is_Some (temp_dir !! "qsl_card.tex") /\
    (forall name, (forall img, img ∈ imgs -> basename img <> name) ->
                  name <> "qsl_card.tex" -> temp_dir !! name = None) /\
    let asked :=
      match missing with
      | [] => staged
      | _ :: _ =>
          show (askyesno "Missing Images" (missing_images_question missing)
                  (continue_anyway env)) staged
      end in
    generate_pdf env self w
    = match missing, continue_anyway env with
      | _ :: _, false =>
          (update_status "PDF generation cancelled" self1, rmtree asked)
      | _, _ =>
          match run env with
          | TimedOut =>
              (update_status "PDF generation timed out" running,
               show (showerror "Error" timeout_message) asked)
          | Completed outputs stderr =>
              after_run env stderr running
                (foldl (fun w0 '(name, content) => write_temp name content w0)
                   asked outputs)
          end
      end.
Proof.
  intros Hwhich self1 running imgs missing.
  assert (Himgs : imgs
            = [ py_or (field_value self1 "background_image") "foto_antenas.jpg";
                py_or (field_value self1 "logo1") "logo_ure_negro.png";
                py_or (field_value self1 "logo2") "qrz_com.png";
                py_or (field_value self1 "logo3") "lotw.png" ]).
  { subst imgs self1. now rewrite !field_value_update_status. }
  set (doc := render (field_value self1)).
  destruct (stage_images_run env imgs
              (write_temp "qsl_card.tex" doc (mkdtemp w)) []
              (<["qsl_card.tex" := doc]> ∅) (temp_dirs w) eq_refl)
    as (staged & temp_dir & Hfold & Hdirs & Hstore & Hboxes & Hsaved & Hkeep & Hnew).
  exists staged, temp_dir.
  split; [exact Hdirs|]. split; [exact Hstore|]. split; [exact Hboxes|].
  split; [exact Hsaved|].
  split; [apply Hkeep; rewrite lookup_insert_eq; eauto|].
  split.
  { intros name Hfresh Hne. rewrite (Hnew name Hfresh).
    rewrite lookup_insert_ne by congruence. apply lookup_empty. }
  intros asked.
  unfold generate_pdf. rewrite Hwhich. cbn [negb].
  unfold generate_pdf_try. rewrite generate_latex_code_run, image_files_run.
  fold self1. fold doc. rewrite <- Himgs. rewrite Hfold. cbn [app]. fold missing.
  cbv zeta. subst asked.
  destruct missing as [|img missing'].
  - destruct (run env) as [|outputs stderr].
    + destruct (continue_anyway env); reflexivity.
    + fold running.
      destruct (after_run env stderr running _) as [s2 w2].
      destruct (continue_anyway env); reflexivity.
  - destruct (continue_anyway env); cbn [negb]; [|reflexivity].
    destruct (run env) as [|outputs stderr]; [reflexivity|].
    fold running. destruct (after_run env stderr running _) as [s2 w2].
    reflexivity.
Qed.

Lemma after_run_effects (env : pdf_env) (stderr : string)
    (self : QSLCardGenerator) (w : World) (temp_dir : gmap string string)
    (others : list (gmap string string)) :
  temp_dirs w = temp_dir :: others ->
  let outcome := after_run env stderr self w in
  temp_dirs (snd outcome) = others /\
  settings_store (snd outcome) = settings_store w /\
  fields (fst outcome) = fields self /\
  root (fst outcome) = root self /\
  data (fst outcome) = data self /\
  match temp_dir !! "qsl_card.pdf", asksaveasfilename env with
  | Some pdf, String c rest =>
      saved_pdfs (snd outcome) = (String c rest, pdf) :: saved_pdfs w /\
      messageboxes (snd outcome)
      = showinfo "Success"
          ("PDF generated successfully!" +:+ nl +:+ nl +:+ "Saved to:" +:+ nl
           +:+ String c rest +:+ nl +:+ nl +:+ "You can now print your QSL card.")
        :: messageboxes w /\
      status_label (fst outcome)
      = (fun _ => "PDF saved successfully to " +:+ String c rest)
          <$> status_label self
  | Some pdf, EmptyString =>
      saved_pdfs (snd outcome) = saved_pdfs w /\
      messageboxes (snd outcome) = messageboxes w /\
      status_label (fst outcome)
      = (fun _ => "PDF generation cancelled by user") <$> status_label self
  | None, _ =>
      saved_pdfs (snd outcome) = saved_pdfs w /\
      messageboxes (snd outcome)
      = showerror "Error" (error_report (temp_dir !! "qsl_card.log") stderr)
        :: messageboxes w /\
      status_label (fst outcome)
      = (fun _ => "PDF generation failed") <$> status_label self
  end.
Proof.
  intros Hdirs outcome. subst outcome. unfold after_run, read_temp.
  rewrite Hdirs.
  destruct (temp_dir !! "qsl_card.pdf") as [pdf|];
    [destruct (asksaveasfilename env) as [|c rest]|];
    cbn [fst snd rmtree show copy_out temp_dirs settings_store messageboxes
         saved_pdfs tail];
    rewrite ?Hdirs, ?fields_update_status, ?root_update_status,
      ?data_update_status, ?status_label_update_status;
    repeat split; reflexivity.
Qed.

Ltac pdf_cases env self w Hwhich :=
  let H := fresh "Hcases" in
  pose proof (generate_pdf_cases env self w Hwhich) as H;
  cbv zeta in H; fold (image_paths self) in H;
  destruct H as (staged & temp_dir & Hdirs & Hstore & Hboxes & Hsaved
                 & Htex & Hnames & Hgenerate);
  rewrite Hgenerate; clear Hgenerate.



Lemma asked_effects (env : pdf_env) (missing : list string) (staged : World) :
  let asked :=
    match missing with
    | [] => staged
    | _ :: _ =>
        show (askyesno "Missing Images" (missing_images_question missing)
                (continue_anyway env)) staged
    end in
  temp_dirs asked = temp_dirs staged /\
  settings_store asked = settings_store staged /\
  saved_pdfs asked = saved_pdfs staged.
Proof. destruct missing; repeat split; reflexivity. Qed.

(** X14: whatever happens around it, [generate_pdf] changes no widget and
    no value of the form, nor its mode or its command-line record, and it
    does not touch the settings file: only the status bar, the message
    boxes, the scratch directories and the saved copies can differ
    afterwards. *)
Theorem generate_pdf_keeps_form (env : pdf_env) (self : QSLCardGenerator)
    (w : World) :
  fields (fst (generate_pdf env self w)) = fields self /\
  root (fst (generate_pdf env self w)) = root self /\
  data (fst (generate_pdf env self w)) = data self /\
  settings_store (snd (generate_pdf env self w)) = settings_store w.
Proof.
  destruct (which_pdflatex env) eqn:Hwhich.
  2:{ unfold generate_pdf. rewrite Hwhich. repeat split; reflexivity. }
  pdf_cases env self w Hwhich.
  set (missing := missing_among env (image_paths self)).
  destruct (asked_effects env missing staged) as (Hd & Hs & _).
  cbv zeta in Hd, Hs.
  set (asked := match missing with [] => staged | _ :: _ => _ end) in *.
  assert (Hended : forall outputs stderr,
            let outcome :=
              after_run env stderr
                (update_status "Running pdflatex (this may take a moment)..."
                   (update_status "Generating PDF..." self))
                (foldl (fun w0 '(name, content) => write_temp name content w0)
                   asked outputs) in
            fields (fst outcome) = fields self /\
            root (fst outcome) = root self /\
            data (fst outcome) = data self /\
            settings_store (snd outcome) = settings_store w).
  { intros outputs stderr outcome. subst outcome.
    destruct (write_outputs_run outputs asked temp_dir (temp_dirs w))
      as (temp_dir' & Hdirs' & Hstore' & _); [now rewrite Hd|].
    destruct (after_run_effects env stderr
                (update_status "Running pdflatex (this may take a moment)..."
                   (update_status "Generating PDF..." self))
                _ temp_dir' (temp_dirs w) Hdirs') as (_ & H1 & H2 & H3 & H4 & _).
    rewrite H1, H2, H3, H4, Hstore', Hs, Hstore.
    rewrite !fields_update_status, !root_update_status, !data_update_status.
    repeat split; reflexivity. }
  destruct missing as [|img missing'], (continue_anyway env), (run env) as [|outputs stderr];
    cbn [fst snd];
    first [ apply Hended
          | rewrite !fields_update_status, !root_update_status, !data_update_status;
            cbn [settings_store show rmtree];
            repeat split; try reflexivity; congruence ].
Qed.

(** X15: [generate_pdf] copies out at most one file, and only after
    [pdflatex] was found and the run ended within the timeout, only to the
    path the operator chose, which is not empty; in every other case,
    among them a cancelled save dialog, the saved copies are as before. *)
Theorem pdf_saved_at_most_once (env : pdf_env) (self : QSLCardGenerator)
    (w : World) :
  saved_pdfs (snd (generate_pdf env self w)) = saved_pdfs w
  \/ (which_pdflatex env = true /\
      (exists outputs stderr, run env = Completed outputs stderr) /\
      asksaveasfilename env <> "" /\
      exists pdf : string,
        saved_pdfs (snd (generate_pdf env self w))
        = (asksaveasfilename env, pdf) :: saved_pdfs w).
Proof.
  destruct (which_pdflatex env) eqn:Hwhich.
  2:{ left. unfold generate_pdf. now rewrite Hwhich. }
  pdf_cases env self w Hwhich.
  set (missing := missing_among env (image_paths self)).
  destruct (asked_effects env missing staged) as (Hd & _ & Hs).
  cbv zeta in Hd, Hs.
  set (asked := match missing with [] => staged | _ :: _ => _ end) in *.
  assert (Hended : forall outputs stderr,
            run env = Completed outputs stderr ->
            let outcome :=
              after_run env stderr
                (update_status "Running pdflatex (this may take a moment)..."
                   (update_status "Generating PDF..." self))
                (foldl (fun w0 '(name, content) => write_temp name content w0)
                   asked outputs) in
            saved_pdfs (snd outcome) = saved_pdfs w
            \/ (true = true /\
                (exists outputs stderr, run env = Completed outputs stderr) /\
                asksaveasfilename env <> "" /\
                exists pdf : string,
                  saved_pdfs (snd outcome)
                  = (asksaveasfilename env, pdf) :: saved_pdfs w)).
  { intros outputs stderr Hended outcome. subst outcome.
    destruct (write_outputs_run outputs asked temp_dir (temp_dirs w))
      as (temp_dir' & Hdirs' & _ & _ & Hsaved' & _); [now rewrite Hd|].
    destruct (after_run_effects env stderr
                (update_status "Running pdflatex (this may take a moment)..."
                   (update_status "Generating PDF..." self))
                _ temp_dir' (temp_dirs w) Hdirs') as (_ & _ & _ & _ & _ & Hout).
    destruct (temp_dir' !! "qsl_card.pdf") as [pdf|];
      [destruct (asksaveasfilename env) as [|c rest] eqn:Hpath|];
      destruct Hout as (Hout & _); rewrite Hout, Hsaved', Hs, Hsaved.
    - now left.
    - right. split; [reflexivity|]. split; [eauto|]. split; [discriminate|].
      eauto.
    - now left. }
  destruct missing as [|img missing'], (continue_anyway env),
    (run env) as [|outputs stderr] eqn:Hrun;
    first [ now apply (Hended outputs stderr)
          | left; cbn [snd saved_pdfs show rmtree]; congruence ].
Qed.








(** ** Base names *)

Lemma has_slash_append (a b : string) :
  has_slash (a +:+ b) = has_slash a || has_slash b.
Proof.
  induction a as [|c a IH]; [reflexivity|].
  change (has_slash (String c (a +:+ b))
          = has_slash (String c a) || has_slash b).
  cbn [has_slash]. destruct (Ascii.eqb c slash); [reflexivity | exact IH].
Qed.

Lemma basename_no_slash (path : string) :
  has_slash path = false -> basename path = path.
Proof.
  destruct path as [|c rest]; [reflexivity|].
  cbn [has_slash basename].
  destruct (Ascii.eqb c slash); [discriminate|]. now intros ->.
Qed.

Lemma basename_has_no_slash (path : string) : has_slash (basename path) = false.
Proof.
  induction path as [|c rest IH]; [reflexivity|].
  cbn [basename]. destruct (has_slash rest) eqn:Hrest; [exact IH|].
  destruct (Ascii.eqb c slash) eqn:Hc; [exact Hrest|].
  cbn [has_slash]. now rewrite Hc.
Qed.

(** X20: the name an image is staged under, its base name, has no slash;
    it is the path itself when the path has none; and it is what follows
    the last slash: a directory part is dropped, so two images of the same
    name in different directories are staged under one name. *)
Theorem basename_drops_directory (path dir name : string) :
  has_slash (basename path) = false /\
  (has_slash path = false -> basename path = path) /\
  (has_slash name = false ->
   basename (dir +:+ String slash name) = name).
Proof.
  split; [apply basename_has_no_slash|]. split; [apply basename_no_slash|].
  intros Hname. induction dir as [|c dir IH].
  - change (basename (String slash name) = name).
    cbn [basename]. rewrite Hname. now rewrite Ascii.eqb_refl.
  - change (basename (String c (dir +:+ String slash name)) = name).
    cbn [basename].
    assert (has_slash (dir +:+ String slash name) = true) as ->;
      [|exact IH].
    rewrite has_slash_append. cbn [has_slash].
    rewrite Ascii.eqb_refl. apply orb_true_r.
Qed.

(** X20 on two logos of the same name. *)
Lemma basename_drops_directory_witness :
  basename "logo.png" = "logo.png" /\
  basename "club/logo.png" = "logo.png" /\
  basename "/home/op/img/logo.png" = "logo.png".
Proof.
  split; [|split].
  - apply (basename_drops_directory "logo.png" "" ""). reflexivity.
  - apply (basename_drops_directory "" "club" "logo.png"). reflexivity.
  - apply (basename_drops_directory "" "/home/op/img" "logo.png"). reflexivity.
Defined.

(** ** The frame of the document *)

(** X21: whatever the record holds, the rendered document begins with the
    same twenty-two lines, which set the paper to 14 cm by 9 cm, and ends
    with the line that closes the document, followed by a line feed. *)
Theorem document_frame (self : QSLCardGenerator) :
  exists doc middle : string,
    generate_latex_code self = (Ok doc, self) /\
    doc = preamble +:+ middle +:+ "\end{document}" +:+ nl /\
    occurs_in
      "\usepackage[papersize={14cm,9cm}, margin=0.5cm, marginratio=1:1]{geometry}"
      preamble.
Proof.
  set (record := field_value self).
  set (lines :=
    latex_lines
      (record "callsign") (record "operator_name") (record "qth_city")
      (record "qth_state") (record "country") (record "grid")
      (record "cq_zone") (record "itu_zone") (record "email")
      (record "qrz_url") (record "via") (record "to_station")
      (record "their_call") (record "date") (record "time") (record "band")
      (record "mode") (record "report") (record "portable_location")
      (record "transceiver") (record "power") (record "antenna")
      (record "satellite")
      (py_or (record "background_image") "foto_antenas.jpg")
      (py_or (record "logo1") "logo_ure_negro.png")
      (py_or (record "logo1_scale") "0.07")
      (py_or (record "logo2") "qrz_com.png")
      (py_or (record "logo2_scale") "0.2")
      (py_or (record "logo3") "lotw.png")
      (py_or (record "logo3_scale") "0.1")
      (home_check (record "qth_type")) (portable_check (record "qth_type"))
      (qso_check (record "qsl_type")) (swl_check (record "qsl_type"))
      (pse_check (record "qsl_request")) (tnx_check (record "qsl_request"))).
  exists (unlines lines), (unlines (take 89 (drop 22 lines))).
  split; [apply generate_latex_code_run|]. split.
  - assert (Hsplit : lines
              = (take 22 lines ++ take 89 (drop 22 lines)
                 ++ ["\end{document}"])%list) by reflexivity.
    rewrite Hsplit at 1. rewrite !unlines_app. reflexivity.
  - unfold preamble. apply occurs_in_unlines with 16. reflexivity.
Qed.

(** ** What is shown of the log *)

(** X22: the error text built from a log shows at most ten lines, all of
    them lines of the log, in the order of the log, each holding one of the
    markers "!", "Error" and "error"; when no line of the log holds a
    marker the text is the bare heading; and as long as there is a log,
    the standard error of the run is not shown. Without a log the text is
    the heading followed by the standard error. *)
Theorem error_report_lines (log_content stderr : string) :
  let heading := "PDF generation failed." +:+ nl +:+ nl in
  (exists shown : list string,
     error_report (Some log_content) stderr
     = match shown with
       | [] => heading
       | _ :: _ => heading +:+ "Errors found:" +:+ nl +:+ String.concat nl shown
       end /\
     length shown <= 10 /\
     shown `sublist_of` split_lines log_content /\
     Forall (fun line => contains "!" line || contains "Error" line
                         || contains "error" line = true) shown) /\
  error_report None stderr = heading +:+ stderr.
Proof.
  intros heading. split; [|reflexivity].
  set (marked := fun l => contains "!" l || contains "Error" l || contains "error" l).
  set (error_lines := filter (fun l => marked l) (split_lines log_content)).
  exists (take 10 error_lines).
  assert (Hreport : error_report (Some log_content) stderr
                    = match error_lines with
                      | [] => heading
                      | _ :: _ =>
                          heading +:+ "Errors found:" +:+ nl
                          +:+ String.concat nl (take 10 error_lines)
                      end) by reflexivity.
  split; [|split; [|split]].
  - rewrite Hreport. destruct error_lines; reflexivity.
  - rewrite length_take. lia.
  - transitivity error_lines; [apply sublist_take|].
    subst error_lines. apply sublist_filter.
  - apply Forall_take, Forall_forall. intros line Hline.
    subst error_lines. apply list_elem_of_filter in Hline as [Hmarked _].
    subst marked. cbn beta in Hmarked. now apply Is_true_true.
Qed.

(** ** The cells of the second side *)

(** X23: whatever the record holds, the second side of the document has
    the VIA and TO STATION boxes filled with the two fields as they are,
    and one row of the contact table holding the callsign of the other
    station, the date, the time, the band, the mode and the report, in
    that order, each as it was typed and separated by the column sign;
    nothing is escaped. *)
Theorem contact_cells (self : QSLCardGenerator) :
  let value := field_value self in
  exists doc : string,
    generate_latex_code self = (Ok doc, self) /\
    occurs_in
      ("{\scriptsize VIA \vphantom{$\int\limits_{\dfrac aa}$} " +:+ value "via"
       +:+ "}\\") doc /\
    occurs_in
      ("{\scriptsize TO STATION \vphantom{$\int\limits_{\dfrac aa}$} "
       +:+ value "to_station" +:+ "}\\") doc /\
    occurs_in
      ("\vphantom{$\dfrac b b$} " +:+ value "their_call" +:+ " & "
       +:+ value "date" +:+ " & " +:+ value "time" +:+ " & " +:+ value "band"
       +:+ " & " +:+ value "mode" +:+ " & " +:+ value "report" +:+ " \\") doc.
Proof.
  intros value. exists (render (field_value self)).
  split; [apply generate_latex_code_run|].
  split; [apply render_line with 57; reflexivity|].
  split; [apply render_line with 59; reflexivity|].
  apply render_line with 71. reflexivity.
Qed.
